(** * Civil home planner: the floor-plan layout of [draw_detailed_floor_plan]

    The layout routine of the planner, [CivilHomePlanner.draw_detailed_floor_plan]
    (src/civil_home_planner.py, lines 251-487), computes a footprint from the
    requested area and then adds rectangles, circles and texts to one
    matplotlib axes.  The embedding below keeps

    - the arithmetic exactly as written, over an abstract number type with
      two instances: binary64 primitive floats (what Python and numpy
      execute, used to run the code on concrete inputs) and the real numbers
      (the arithmetic without rounding, used for statements about every
      input);
    - the distinction between numpy scalars and builtin numbers, because a
      builtin division by zero raises [ZeroDivisionError] and a numpy one
      returns inf or nan;
    - the conversion of the int arguments [bedrooms] and [bathrooms] to
      floats where they meet a float, because it raises [OverflowError] for
      an int that has no float value;
    - the scene as the list of [ax.add_patch] / [ax.text] calls in the order
      in which they are made, every call annotated with the role the source
      gives it (the variable name and the section comment it stands under).

    Rendering attributes (colours, line widths, fonts, alignment) and the
    plotting backend itself are left out: a scene is the list of calls the
    routine makes, not what the backend draws from them. *)

From Stdlib Require Import ZArith List String Bool Lia.
From Stdlib Require Import Reals Lra.
From Stdlib Require Import Floats.
Import ListNotations.

Set Implicit Arguments.

(** ** Errors *)

Inductive exn : Type :=
| ZeroDivisionError
| OverflowError.

Inductive result (A : Type) : Type :=
| Ok (a : A)
| Raise (e : exn).

Arguments Ok {A} a.
Arguments Raise {A} e.

Definition bind {A B : Type} (m : result A) (k : A -> result B) : result B :=
  match m with
  | Ok a => k a
  | Raise e => Raise e
  end.

Notation "x <- m ;; k" := (bind m (fun x => k))
  (at level 61, m at next level, right associativity).

Definition returns {A : Type} (m : result A) : bool :=
  match m with
  | Ok _ => true
  | Raise _ => false
  end.

(** ** Numbers *)

(** The arithmetic the routine uses.  [of_int] is the conversion of a Python
    int to a float operand; [ltb] and [leb] are [<] and [<=]; [is_zero] is
    the test [x == 0] that a builtin division makes on its divisor. *)
Class PyArith (num : Type) : Type := {
  of_int : Z -> num;
  add : num -> num -> num;
  sub : num -> num -> num;
  mul : num -> num -> num;
  div : num -> num -> num;
  sqrt : num -> num;
  ltb : num -> num -> bool;
  leb : num -> num -> bool;
  is_zero : num -> bool
}.

(** ** Scene vocabulary *)

(** Zone kinds; the index of a bedroom or bathroom is the loop variable
    [bed_num] / [bath_num]. *)
Inductive zone_kind : Type :=
| Living
| Kitchen
| Bedroom (n : nat)
| Bathroom (n : nat).

(** Furniture and fixtures, named after the source's variables. *)
Inductive fixture : Type :=
| Sofa | CoffeeTable | TvUnit | DiningTable | Chair (i : nat)
| Stove | Burner (i : nat) | Fridge | Counter | KitchenSink | Cabinet (j : nat)
| Bed | Wardrobe | Desk
| Bathtub | Toilet | BathSink.

(** What a call draws. *)
Inductive role : Type :=
| OuterWall
| Zone (z : zone_kind)
| Fixture (z : zone_kind) (f : fixture)
| FixtureLabel (z : zone_kind) (f : fixture)
| ZoneLabel (z : zone_kind)
| Door
| DoorLabel
| Window
| Title
| Info
| Legend.

Definition zone_kind_eqb (a b : zone_kind) : bool :=
  match a, b with
  | Living, Living => true
  | Kitchen, Kitchen => true
  | Bedroom n, Bedroom m => Nat.eqb n m
  | Bathroom n, Bathroom m => Nat.eqb n m
  | _, _ => false
  end.

Definition is_zone (r : role) : bool :=
  match r with Zone _ => true | _ => false end.
Definition is_living (r : role) : bool :=
  match r with Zone Living => true | _ => false end.
Definition is_kitchen (r : role) : bool :=
  match r with Zone Kitchen => true | _ => false end.
Definition is_bedroom (r : role) : bool :=
  match r with Zone (Bedroom _) => true | _ => false end.
Definition is_bathroom (r : role) : bool :=
  match r with Zone (Bathroom _) => true | _ => false end.
Definition is_fixture (r : role) : bool :=
  match r with Fixture _ _ => true | _ => false end.
Definition is_door (r : role) : bool :=
  match r with Door => true | _ => false end.
Definition is_window (r : role) : bool :=
  match r with Window => true | _ => false end.

Section Planner.

Context {num : Type} {A : PyArith num}.

(** A Python number: its value, and whether it is a numpy scalar
    (np.float64) or a builtin int or float. *)
Record value : Type := PyVal { num_of : num; is_np : bool }.

Definition int (z : Z) : value := PyVal (of_int z) false.

(** The decimal literal [m / d]: the float nearest to it. *)
Definition flt (m d : Z) : value := PyVal (div (of_int m) (of_int d)) false.

Definition lift (op : num -> num -> num) (a b : value) : value :=
  PyVal (op (num_of a) (num_of b)) (is_np a || is_np b).

Definition vadd : value -> value -> value := lift add.
Definition vsub : value -> value -> value := lift sub.
Definition vmul : value -> value -> value := lift mul.

(** Division by a literal that is not zero: it cannot raise. *)
Definition vdiv : value -> value -> value := lift div.

(** Division by a variable, once both operands are floats: between builtin
    numbers a zero divisor raises; as soon as one operand is a numpy scalar
    the result is inf or nan.  An int divisor is converted by [operand]
    before. *)
Definition checked_div (a b : value) : result value :=
  if negb (is_np a || is_np b) && is_zero (num_of b)
  then Raise ZeroDivisionError
  else Ok (vdiv a b).

(** An int operand of a float operation is converted to a float first, and
    the conversion of an int whose nearest float is not finite raises
    OverflowError (both for a builtin float and for a numpy scalar on the
    other side).  The test is on the converted number [x]: [x - x] is 0 when
    [x] is finite and NaN when it is an infinity. *)
Definition fits (z : Z) : bool := is_zero (sub (of_int z) (of_int z)).

Definition operand (z : Z) : result value :=
  if fits z then Ok (int z) else Raise OverflowError.

(** [np.sqrt] returns a numpy scalar. *)
Definition np_sqrt (a : value) : value := PyVal (sqrt (num_of a)) true.

Definition vgt (a b : value) : bool := ltb (num_of b) (num_of a).
Definition vle (a b : value) : bool := leb (num_of a) (num_of b).

(** Python's [max(a, b)]: the first argument unless the second is greater. *)
Definition py_max (a b : value) : value := if vgt b a then b else a.

Declare Scope py_scope.
Delimit Scope py_scope with py.
Bind Scope py_scope with value.
Local Notation "a + b" := (vadd a b) : py_scope.
Local Notation "a - b" := (vsub a b) : py_scope.
Local Notation "a * b" := (vmul a b) : py_scope.
Local Notation "a / b" := (vdiv a b) : py_scope.
Local Notation "a /? b" := (checked_div a b) (at level 40, left associativity) : py_scope.
Local Open Scope py_scope.

(** The pieces of a (formatted) string. *)
Inductive piece : Type :=
| Str (s : string)
| IntF (z : Z)                       (* {z} *)
| Fixed (v : value) (digits : nat)   (* {v:.nf} *)
| Upper (s : string)                 (* {s.upper()} *)
| Newline.

Inductive shape : Type :=
| Rectangle (x y w h : value)
| Circle (cx cy r : value)
| Text (x y : value) (s : list piece).

Definition primitive : Type := (role * shape)%type.
Definition scene : Type := list primitive.

Definition range (n : Z) : list nat := seq 0 (Z.to_nat n).

Definition start_x : value := int 10.
Definition start_y : value := int 10.

(** *** Footprint (lines 260-266) *)

Definition raw_dimensions (area : value) : result (value * value) :=
  let width := np_sqrt (area / int 100) * int 12 in
  height <- (if vgt width (int 0) then area /? width else Ok (int 12)) ;;
  Ok (width, height).

Definition footprint (area : value) : result (value * value) :=
  wh <- raw_dimensions area ;;
  let '(width, height) := wh in
  scale <- int 100 /? py_max width height ;;
  Ok (width * scale, height * scale).

(** *** Living room / hall (lines 282-323) *)

Definition living_room (height main_height hall_width : value) : scene :=
  let top := start_y + height - main_height in
  [ (Zone Living,
       Rectangle (start_x + int 1) (top - int 1) (hall_width - int 2) (main_height - int 2));
    (Fixture Living Sofa,
       Rectangle (start_x + int 3) (top + int 2) (int 8) (int 3));
    (FixtureLabel Living Sofa,
       Text (start_x + int 7) (top + flt 35 10) [Str "SOFA"]);
    (Fixture Living CoffeeTable,
       Rectangle (start_x + int 3) (top + int 6) (int 8) (int 2));
    (FixtureLabel Living CoffeeTable,
       Text (start_x + int 7) (top + int 7) [Str "TABLE"]);
    (Fixture Living TvUnit,
       Rectangle (start_x + int 3) (top + int 9) (int 8) (flt 25 10));
    (FixtureLabel Living TvUnit,
       Text (start_x + int 7) (top + flt 102 10) [Str "TV UNIT"]);
    (Fixture Living DiningTable,
       Rectangle (start_x + int 12) (top + int 3) (int 6) (int 5));
    (FixtureLabel Living DiningTable,
       Text (start_x + int 15) (top + flt 55 10) [Str "DINING"]) ]
  ++ map (fun c : nat * (value * value) =>
            let '(i, (x_off, y_off)) := c in
            (Fixture Living (Chair i),
               Rectangle (start_x + int 15 + x_off * flt 15 10)
                         (top + flt 55 10 + y_off * flt 15 10)
                         (int 1) (int 1)))
         [ (0%nat, (int 1, int 0)); (1%nat, (int (-1), int 0));
           (2%nat, (int 0, flt 15 10)); (3%nat, (int 0, flt (-15) 10)) ]
  ++ [ (ZoneLabel Living,
          Text (start_x + hall_width / int 2) (start_y + height - int 2)
               [Str "LIVING ROOM / HALL"]) ].

(** *** Kitchen (lines 326-368) *)

Definition kitchen (width height main_height hall_width : value) : scene :=
  let top := start_y + height - main_height in
  let left := start_x + hall_width in
  [ (Zone Kitchen,
       Rectangle (left + int 1) (top - int 1)
                 (width - hall_width - int 2) (main_height - int 2));
    (Fixture Kitchen Stove,
       Rectangle (left + int 3) (top + int 2) (int 3) (int 3)) ]
  ++ map (fun i : nat =>
            (Fixture Kitchen (Burner i),
               Circle (left + flt 375 100 + int (Z.of_nat i mod 2) * flt 15 10)
                      (top + flt 275 100 + int (Z.of_nat i / 2) * flt 15 10)
                      (flt 4 10)))
         (range 4)
  ++ [ (FixtureLabel Kitchen Stove,
          Text (left + flt 45 10) (top + flt 55 10) [Str "STOVE"]);
       (Fixture Kitchen Fridge,
          Rectangle (left + int 7) (top + int 2) (int 3) (int 3));
       (FixtureLabel Kitchen Fridge,
          Text (left + flt 85 10) (top + flt 35 10) [Str "FRIDGE"]);
       (Fixture Kitchen Counter,
          Rectangle (left + int 11) (top + int 2) (int 4) (int 3));
       (Fixture Kitchen KitchenSink,
          Rectangle (left + int 12) (top + flt 25 10) (int 2) (flt 15 10));
       (FixtureLabel Kitchen KitchenSink,
          Text (left + int 13) (top + flt 32 10) [Str "SINK"]) ]
  ++ map (fun j : nat =>
            (Fixture Kitchen (Cabinet j),
               Rectangle (left + int 3 + int (Z.of_nat j) * flt 45 10)
                         (top + flt 55 10) (int 3) (int 2)))
         (range 2)
  ++ [ (ZoneLabel Kitchen,
          Text (left + width / int 4) (start_y + height - int 2) [Str "KITCHEN"]) ].

(** *** Bedrooms (lines 371-403) *)

Definition bedroom (bedrooms : Z) (hall_width bedroom_height : value)
    (bed_num : nat) : scene :=
  let bed_y := start_y + int (bedrooms - Z.of_nat bed_num - 1) * bedroom_height in
  [ (Zone (Bedroom bed_num),
       Rectangle (start_x + int 1) (bed_y + int 1)
                 (hall_width - int 2) (bedroom_height - int 2));
    (Fixture (Bedroom bed_num) Bed,
       Rectangle (start_x + int 3) (bed_y + int 3) (int 6) (int 4));
    (FixtureLabel (Bedroom bed_num) Bed,
       Text (start_x + int 6) (bed_y + int 5)
            [Str "BED "; IntF (Z.of_nat bed_num + 1)]);
    (Fixture (Bedroom bed_num) Wardrobe,
       Rectangle (start_x + int 10) (bed_y + int 3) (int 3) (int 4));
    (FixtureLabel (Bedroom bed_num) Wardrobe,
       Text (start_x + flt 115 10) (bed_y + int 5) [Str "W"]) ]
  ++ (if Nat.eqb bed_num 0
      then [ (Fixture (Bedroom bed_num) Desk,
                Rectangle (start_x + int 14) (bed_y + int 3) (int 3) (int 2));
             (FixtureLabel (Bedroom bed_num) Desk,
                Text (start_x + flt 155 10) (bed_y + int 4) [Str "DESK"]) ]
      else [])
  ++ [ (ZoneLabel (Bedroom bed_num),
          Text (start_x + hall_width / int 2) (bed_y + bedroom_height - int 1)
               [Str "BEDROOM "; IntF (Z.of_nat bed_num + 1)]) ].

(** *** Bathrooms (lines 406-439) *)

Definition bathroom (width hall_width bath_y_start bath_height : value)
    (bath_num : nat) : scene :=
  let bath_y := bath_y_start - int (Z.of_nat bath_num) * bath_height in
  let left := start_x + hall_width in
  [ (Zone (Bathroom bath_num),
       Rectangle (left + int 1) (bath_y + int 1)
                 (width - hall_width - int 2) (bath_height - int 2));
    (Fixture (Bathroom bath_num) Bathtub,
       Rectangle (left + int 3) (bath_y + int 2) (int 4) (flt 25 10));
    (FixtureLabel (Bathroom bath_num) Bathtub,
       Text (left + int 5) (bath_y + flt 32 10) [Str "TUB"]);
    (Fixture (Bathroom bath_num) Toilet,
       Circle (left + int 9) (bath_y + int 3) (flt 8 10));
    (FixtureLabel (Bathroom bath_num) Toilet,
       Text (left + int 9) (bath_y + int 3) [Str "T"]);
    (Fixture (Bathroom bath_num) BathSink,
       Rectangle (left + int 11) (bath_y + int 2) (int 3) (int 2));
    (FixtureLabel (Bathroom bath_num) BathSink,
       Text (left + flt 125 10) (bath_y + int 3) [Str "SINK"]);
    (ZoneLabel (Bathroom bath_num),
       Text (left + (width - hall_width) / int 2) (bath_y + bath_height - flt 5 10)
            [Str "BATHROOM "; IntF (Z.of_nat bath_num + 1)]) ].

(** *** Doors and windows (lines 443-461) *)

Definition window_positions (width : value) : list (value * value) :=
  [ (start_x - flt 2 10, start_y + int 15);
    (start_x - flt 2 10, start_y + int 35);
    (start_x + width + flt 2 10, start_y + int 15);
    (start_x + width + flt 2 10, start_y + int 35);
    (start_x + int 20, start_y - flt 2 10);
    (start_x + int 40, start_y - flt 2 10) ].

Definition openings (width hall_width : value) : scene :=
  [ (Door, Rectangle (start_x + hall_width - int 1) start_y (int 2) (flt 5 10));
    (DoorLabel,
       Text (start_x + hall_width - flt 5 10) (start_y - int 1) [Str "üö™ MAIN DOOR"]) ]
  ++ map (fun p : value * value =>
            let '(wx, wy) := p in
            (Window, Rectangle (wx - flt 3 10) (wy - flt 3 10) (flt 6 10) (flt 6 10)))
         (firstn (Z.to_nat (Z.min 4 6)) (window_positions width)).

(** *** Title and measurements (lines 464-476) *)

Definition captions (bedrooms bathrooms : Z) (area width height : value)
    (style : string) : scene :=
  [ (Title, Text (int 70) (int 115) [Upper style; Str " HOME - COMPLETE FLOOR PLAN"]);
    (Info, Text (int 70) (int 4)
             [ Str "Total Area: "; Fixed area 0; Str " sq ft | Width: ";
               Fixed width 1; Str "m | Length: "; Fixed height 1; Str "m";
               Newline; Str "Bedrooms: "; IntF bedrooms;
               Str " | Bathrooms: "; IntF bathrooms ]);
    (Legend, Text (int 10) (int 4) [Str "‚ïê‚ïê‚ïê‚ïê‚ïê‚ïê‚ïê‚ïê‚ïê‚ïê‚ïê‚ïê‚ïê‚ïê‚ïê‚ïê‚ïê‚ïê‚ïê‚ïê‚ïê‚ïê‚ïê‚ïê‚ïê‚ïê‚ïê‚ïê‚ïê"]);
    (Legend, Text (int 10) (int 1)
               [Str "LEGEND: Proper Scale ‚óØ Windows | üö™ Doors | Measurements in meters"]) ].

(** *** The routine (lines 251-487) *)

(** Every call of the routine, in the order in which it is made, given the
    three quotients of lines 371, 406 and 407. *)
Definition floor_plan_calls (bedrooms bathrooms : Z) (area width height : value)
    (style : string) (bedroom_height share bath_height : value) : scene :=
  let outer_wall := (OuterWall, Rectangle start_x start_y width height) in
  let main_height := height / flt 25 10 in
  let hall_width := width / int 2 in
  let bath_y_start := start_y + height - main_height - share in
  outer_wall
  :: living_room height main_height hall_width
  ++ kitchen width height main_height hall_width
  ++ flat_map (bedroom bedrooms hall_width bedroom_height) (range bedrooms)
  ++ flat_map (bathroom width hall_width bath_y_start bath_height) (range bathrooms)
  ++ openings width hall_width
  ++ captions bedrooms bathrooms area width height style.

(** The quotients by [bedrooms] (line 371), [bathrooms + 1] (line 406) and
    [bathrooms + 1.5] (line 407) are the operations that can raise: each
    converts an int, which fails on an int without a float value, and then
    divides.  When one raises, the figure drawn so far is lost with the
    exception, so the calls are listed once all three are known.  The ints
    that the loops convert ([bedrooms - bed_num - 1] and [bath_num]) are
    smaller than a count converted before. *)
Definition layout (bedrooms bathrooms : Z) (area width height : value)
    (style : string) : result scene :=
  let main_height := height / flt 25 10 in
  divisor <- operand bedrooms ;;
  bedroom_height <- (height - main_height) /? divisor ;;
  divisor <- operand (bathrooms + 1) ;;
  share <- (height - main_height) /? divisor ;;
  count <- operand bathrooms ;;
  bath_height <- (height - main_height) /? (count + flt 15 10) ;;
  Ok (floor_plan_calls bedrooms bathrooms area width height style
        bedroom_height share bath_height).

(** The three ints that the routine converts have a float value. *)
Definition counts_fit (bedrooms bathrooms : Z) : bool :=
  fits bedrooms && fits (bathrooms + 1) && fits bathrooms.

(** None of its three divisors is zero. *)
Definition divisors_nonzero (bedrooms bathrooms : Z) : bool :=
  negb (is_zero (of_int bedrooms)) && negb (is_zero (of_int (bathrooms + 1)))
  && negb (is_zero (num_of (int bathrooms + flt 15 10))).

Definition draw_detailed_floor_plan (bedrooms bathrooms : Z) (area : num)
    (style : string) : result scene :=
  let area := PyVal area false in
  wh <- footprint area ;;
  let '(width, height) := wh in
  layout bedrooms bathrooms area width height style.

(** ** What the specification says about a scene *)

Definition shapes_with (p : role -> bool) (s : scene) : list shape :=
  map snd (filter (fun q => p (fst q)) s).

Definition count (p : role -> bool) (s : scene) : nat :=
  List.length (shapes_with p s).

Definition roles (s : scene) : list role := map fst s.


(** A property of the scene the routine returns; it fails when the routine
    raises. *)
Definition holds (P : scene -> bool) (r : result scene) : bool :=
  match r with
  | Ok s => P s
  | Raise _ => false
  end.

Definition veq (a b : value) : bool := vle a b && vle b a.

(** The footprint has positive sides and its larger side is exactly the
    canvas budget of 100. *)
Definition footprint_fills_budget (area : value) : bool :=
  match footprint area with
  | Ok (width, height) =>
      vgt width (int 0) && vgt height (int 0) && veq (py_max width height) (int 100)
  | Raise _ => false
  end.

(** Two areas give the same aspect ratio, and both fill the budget. *)
Definition same_aspect_ratio (area1 area2 : value) : bool :=
  match footprint area1, footprint area2 with
  | Ok (w1, h1), Ok (w2, h2) =>
      veq (w1 / h1) (w2 / h2)
      && veq (py_max w1 h1) (int 100) && veq (py_max w2 h2) (int 100)
  | _, _ => false
  end.

(** The same up to a tolerance: positive sides and a larger side within
    [tol] of 100; an aspect ratio within [tol] of 1.44. *)
Definition sides_near_budget (tol width height : value) : bool :=
  vgt width (int 0) && vgt height (int 0)
  && vle (int 100 - tol) (py_max width height)
  && vle (py_max width height) (int 100 + tol).

Definition ratio_near (tol width height : value) : bool :=
  vle (flt 144 100 - tol) (width / height)
  && vle (width / height) (flt 144 100 + tol).

Definition footprint_near_budget (tol : value) (area : value) : bool :=
  match footprint area with
  | Ok (width, height) => sides_near_budget tol width height
  | Raise _ => false
  end.

Definition aspect_ratio_near (tol : value) (area : value) : bool :=
  match footprint area with
  | Ok (width, height) => ratio_near tol width height
  | Raise _ => false
  end.

(** The two ends of an extent, in increasing order. *)
Definition lower (a b : value) : value := if vgt a b then b else a.
Definition upper (a b : value) : value := if vgt b a then b else a.

(** Bounding box [(x0, y0, x1, y1)] of a patch as it is drawn: a rectangle
    of negative width or height extends to the left of its anchor or below
    it, so the ends are put in order. *)
Definition bbox (sh : shape) : option (value * value * value * value) :=
  match sh with
  | Rectangle x y w h =>
      Some (lower x (x + w), lower y (y + h), upper x (x + w), upper y (y + h))
  | Circle cx cy r =>
      Some (lower (cx - r) (cx + r), lower (cy - r) (cy + r),
            upper (cx - r) (cx + r), upper (cy - r) (cy + r))
  | Text _ _ _ => None
  end.

(** [inner] lies in [outer] shrunk by the clearance [c] on every side. *)
Definition within (c : value) (inner outer : shape) : bool :=
  match bbox inner, bbox outer with
  | Some (ix0, iy0, ix1, iy1), Some (ox0, oy0, ox1, oy1) =>
      vle (ox0 + c) ix0 && vle ix1 (ox1 - c)
      && vle (oy0 + c) iy0 && vle iy1 (oy1 - c)
  | _, _ => false
  end.

(** Every fixture lies in the interior of the zone it is drawn for. *)
Definition fixtures_contained (c : value) (s : scene) : bool :=
  forallb (fun p =>
    match fst p with
    | Fixture z _ =>
        forallb (fun q =>
          match fst q with
          | Zone z' => if zone_kind_eqb z z' then within c (snd p) (snd q) else true
          | _ => true
          end) s
    | _ => true
    end) s.

(** The band [lo, hi] of the y axis contains the patch. *)
Definition in_band (lo hi : value) (sh : shape) : bool :=
  match bbox sh with
  | Some (_, y0, _, y1) => vle lo y0 && vle y1 hi
  | None => false
  end.

Definition is_outer_wall (r : role) : bool :=
  match r with OuterWall => true | _ => false end.
Definition is_service_zone (r : role) : bool := is_living r || is_kitchen r.
Definition is_private_zone (r : role) : bool := is_bedroom r || is_bathroom r.


(** What the code does instead: the service band is the top
    [height / 2.5] of the footprint; the Living and Kitchen rectangles are
    that band moved down by one unit and two units lower; every Bedroom and
    Bathroom rectangle, as drawn, lies between the footprint's bottom edge
    and the boundary of the two bands. *)
Definition service_band_on_top (s : scene) : bool :=
  match shapes_with is_outer_wall s with
  | Rectangle _ y _ h :: _ =>
      let boundary := y + h - h / flt 25 10 in
      forallb (fun sh =>
                 match sh with
                 | Rectangle _ zy _ zh =>
                     veq zy (boundary - int 1) && veq zh (h / flt 25 10 - int 2)
                 | _ => false
                 end) (shapes_with is_service_zone s)
      && forallb (in_band y boundary) (shapes_with is_private_zone s)
  | _ => false
  end.


(** What the code does instead: the single door sits on the footprint's
    bottom edge, centred on the midpoint of that edge, and the Living zone
    lies in the upper half of the footprint. *)
Definition door_on_footprint_bottom_midpoint (s : scene) : bool :=
  match shapes_with is_outer_wall s, shapes_with is_living s, shapes_with is_door s with
  | Rectangle fx fy fw fh :: _, Rectangle _ ly _ _ :: _, [Rectangle dx dy dw _] =>
      veq dy fy
      && veq (dx + dw / int 2) (fx + fw / int 2)
      && vgt ly (fy + fh / int 2)
  | _, _, _ => false
  end.

(** A window straddles the line of the left, right or front (bottom) wall,
    within the extent of that wall. *)
Definition on_left_edge (wall w : shape) : bool :=
  match wall, bbox w with
  | Rectangle fx fy _ fh, Some (x0, y0, x1, y1) =>
      vle x0 fx && vle fx x1 && vle fy y0 && vle y1 (fy + fh)
  | _, _ => false
  end.

Definition on_right_edge (wall w : shape) : bool :=
  match wall, bbox w with
  | Rectangle fx fy fw fh, Some (x0, y0, x1, y1) =>
      vle x0 (fx + fw) && vle (fx + fw) x1 && vle fy y0 && vle y1 (fy + fh)
  | _, _ => false
  end.

Definition on_front_edge (wall w : shape) : bool :=
  match wall, bbox w with
  | Rectangle fx fy fw _, Some (x0, y0, x1, y1) =>
      vle y0 fy && vle fy y1 && vle fx x0 && vle x1 (fx + fw)
  | _, _ => false
  end.

Definition windows_on (edge : shape -> shape -> bool) (s : scene) : nat :=
  match shapes_with is_outer_wall s with
  | wall :: _ => List.length (filter (edge wall) (shapes_with is_window s))
  | [] => 0
  end.

(** At most six windows, and at least one on each of the three edges. *)
Definition windows_on_three_edges (s : scene) : bool :=
  Nat.leb (count is_window s) 6
  && Nat.ltb 0 (windows_on on_left_edge s)
  && Nat.ltb 0 (windows_on on_right_edge s)
  && Nat.ltb 0 (windows_on on_front_edge s).







(** The room for which a fixture or a label is drawn. *)
Definition zone_of (r : role) : option zone_kind :=
  match r with
  | Fixture z _ | FixtureLabel z _ | ZoneLabel z => Some z
  | _ => None
  end.

Definition owned (z : zone_kind) (r : role) : bool :=
  match zone_of r with
  | Some z' => zone_kind_eqb z z'
  | None => false
  end.

(** The calls of one room after its zone rectangle: the fixtures and labels
    of that room, up to the first call that is not of the room; and what
    follows them. *)
Fixpoint room_block (z : zone_kind) (l : list role) : list role * list role :=
  match l with
  | r :: t =>
      if owned z r
      then let '(block, rest) := room_block z t in (r :: block, rest)
      else ([], l)
  | [] => ([], [])
  end.

(** A fixture is drawn after a label: the patches and the texts of a room
    are interleaved. *)
Fixpoint fixture_after_label (label_seen : bool) (l : list role) : bool :=
  match l with
  | [] => false
  | Fixture _ _ :: t => label_seen || fixture_after_label label_seen t
  | (FixtureLabel _ _ | ZoneLabel _) :: t => fixture_after_label true t
  | _ :: t => fixture_after_label label_seen t
  end.

(** The rooms [zs] come one after the other, in this order: for each its
    zone rectangle, then its fixtures and labels, interleaved, and no call
    of another room.  The result is what follows the last room. *)
Fixpoint rooms_in_order (zs : list zone_kind) (l : list role) : option (list role) :=
  match zs with
  | [] => Some l
  | z :: zs' =>
      match l with
      | Zone z' :: t =>
          let '(block, rest) := room_block z t in
          if zone_kind_eqb z z' && fixture_after_label false block
          then rooms_in_order zs' rest
          else None
      | _ => None
      end
  end.

Fixpoint skip_windows (l : list role) : list role :=
  match l with
  | Window :: t => skip_windows t
  | _ => l
  end.

(** The rooms of a plan, in the order in which the routine draws them. *)
Definition plan_rooms (bedrooms bathrooms : Z) : list zone_kind :=
  Living :: Kitchen :: map Bedroom (range bedrooms) ++ map Bathroom (range bathrooms).

(** The order of the code: the outline; the rooms one after the other
    (Living, Kitchen, the bedrooms, the bathrooms), each complete before the
    next one starts; the door, its label and the windows; the title, the
    summary and the two lines of the legend. *)
Definition room_by_room (bedrooms bathrooms : Z) (s : scene) : bool :=
  match roles s with
  | OuterWall :: l =>
      match rooms_in_order (plan_rooms bedrooms bathrooms) l with
      | Some (Door :: DoorLabel :: rest) =>
          match skip_windows rest with
          | [Title; Info; Legend; Legend] => true
          | _ => false
          end
      | _ => false
      end
  | _ => false
  end.

(** ** The parts of a scene *)

(** The zone rectangle of a bedroom or a bathroom: the first call of its
    block. *)
Definition bedroom_rect (bedrooms : Z) (hall_width bedroom_height : value)
    (n : nat) : shape :=
  snd (hd (OuterWall, Text start_x start_y [])
          (bedroom bedrooms hall_width bedroom_height n)).

Definition bathroom_rect (width hall_width bath_y_start bath_height : value)
    (n : nat) : shape :=
  snd (hd (OuterWall, Text start_x start_y [])
          (bathroom width hall_width bath_y_start bath_height n)).

(** A window drawn around the position [(wx, wy)]. *)
Definition window_at (wx wy : value) : shape :=
  Rectangle (wx - flt 3 10) (wy - flt 3 10) (flt 6 10) (flt 6 10).

(** The windows that the six listed positions stand for (lines 449-456). *)
Definition listed_windows (width : value) : list shape :=
  map (fun p : value * value => window_at (fst p) (snd p)) (window_positions width).

(** The room a call belongs to, and the calls of a room. *)
Definition room_of (r : role) : option zone_kind :=
  match r with
  | Zone z => Some z
  | _ => zone_of r
  end.

Definition room (bedrooms : Z) (width height bedroom_height share bath_height : value)
    (z : zone_kind) : scene :=
  let main_height := height / flt 25 10 in
  let hall_width := width / int 2 in
  let bath_y_start := start_y + height - main_height - share in
  match z with
  | Living => living_room height main_height hall_width
  | Kitchen => kitchen width height main_height hall_width
  | Bedroom n => bedroom bedrooms hall_width bedroom_height n
  | Bathroom n => bathroom width hall_width bath_y_start bath_height n
  end.

Definition zone_in_plan (bedrooms bathrooms : Z) (z : zone_kind) : Prop :=
  match z with
  | Living | Kitchen => True
  | Bedroom n => In n (range bedrooms)
  | Bathroom n => In n (range bathrooms)
  end.

(** The roles of a room's calls: the zone rectangle, then fixtures and
    labels of that zone, a fixture among them after a label. *)
Definition room_items (z : zone_kind) (l : list role) : Prop :=
  exists items,
    l = Zone z :: items /\ Forall (fun r => zone_of r = Some z) items
    /\ fixture_after_label false items = true.

End Planner.

Arguments int {num A} z%_Z.
Arguments flt {num A} (m d)%_Z.

(** ** The two arithmetics *)

(** Binary64, as Python and numpy compute: every operation is the IEEE 754
    one, rounded to nearest even.  An int operand is converted by correct
    rounding, which is exact up to 2^53.  An int beyond the largest float
    rounds to an infinity here; Python raises OverflowError for it, which is
    what [operand] does on seeing the infinity, and [of_int] is applied
    without that guard only to the literals of the source, to the loop
    indices, which are smaller than a count converted before, and to the
    integer areas of the statements below. *)
Definition float_of_Z (z : Z) : float :=
  if (Z.abs z <=? 9007199254740992)%Z
  then match z with
       | Z0 => PrimFloat.zero
       | Zpos _ => PrimFloat.of_uint63 (Uint63.of_Z z)
       | Zneg p => PrimFloat.opp (PrimFloat.of_uint63 (Uint63.of_Z (Zpos p)))
       end
  else SF2Prim (binary_normalize prec emax z 0 false).

#[export] Instance float_arith : PyArith float := {
  of_int := float_of_Z;
  add := PrimFloat.add;
  sub := PrimFloat.sub;
  mul := PrimFloat.mul;
  div := PrimFloat.div;
  sqrt := PrimFloat.sqrt;
  ltb := PrimFloat.ltb;
  leb := PrimFloat.leb;
  is_zero := fun x => PrimFloat.eqb x PrimFloat.zero
}.

(** The real numbers: the same formulas without rounding.  It agrees with
    the code where the code takes no square root of a negative number and
    divides by no zero, which is what the statements over it assume. *)
#[export] Instance real_arith : PyArith R := {
  of_int := IZR;
  add := Rplus;
  sub := Rminus;
  mul := Rmult;
  div := Rdiv;
  sqrt := R_sqrt.sqrt;
  ltb := fun a b => if Rlt_dec a b then true else false;
  leb := fun a b => if Rle_dec a b then true else false;
  is_zero := fun x => if Req_dec_T x 0%R then true else false
}.

(** The routine as Python runs it, and as it computes without rounding.
    The area is a float, as the signature has it ([area: float]).  An area
    given as an int [n] stands for [float_of_Z n]: up to 2^53 the conversion
    is exact and Python's [n / 100] on two ints is the same correctly
    rounded quotient; the statements below take integer areas from 500 to
    50000 only. *)
Definition run (bedrooms bathrooms : Z) (area : float) (style : string)
  : result (@scene float) :=
  draw_detailed_floor_plan bedrooms bathrooms area style.

Definition ideal (bedrooms bathrooms : Z) (area : R) (style : string)
  : result (@scene R) :=
  draw_detailed_floor_plan bedrooms bathrooms area style.


(** Without rounding the scaled footprint is the same for every positive
    area: 100 wide and 625/9 high. *)
Definition W : @value R := PyVal 100%R true.
Definition H : @value R := PyVal (625 / 9)%R true.

(** The height left below the service band, and the scene for that
    footprint with the three quotients of lines 371, 406 and 407. *)
Definition private_height : @value R := vsub H (vdiv H (flt 25 10)).

Definition ideal_calls (bedrooms bathrooms : Z) (area : R) (style : string)
  : @scene R :=
  floor_plan_calls bedrooms bathrooms (PyVal area false) W H style
    (vdiv private_height (int bedrooms))
    (vdiv private_height (int (bathrooms + 1)))
    (vdiv private_height (vadd (int bathrooms) (flt 15 10))).

(** The outline of a scene has NaN sides. *)
Definition outline_is_nan (s : @scene float) : bool :=
  match shapes_with is_outer_wall s with
  | [Rectangle _ _ w h] => negb (veq w w) && negb (veq h h)
  | _ => false
  end.

(** [P] holds of the [n] integers from [z] on. *)
Fixpoint all_from (n : nat) (z : Z) (P : Z -> bool) : bool :=
  match n with
  | O => true
  | S n' => P z && all_from n' (z + 1) P
  end.

(** One unit in the last place of 100, and eight of 1.44. *)
Definition ulp_100 : @value float := flt 1 70368744177664.
Definition ulps_ratio : @value float := flt 1 562949953421312.

(** The footprint of an integer area in binary64: close to the budget and
    to the ratio 1.44, with a height that is a numpy scalar. *)
Definition footprint_binary64_ok (area : Z) : bool :=
  match footprint (PyVal (float_of_Z area) false) with
  | Ok (width, height) =>
      sides_near_budget ulp_100 width height
      && ratio_near ulps_ratio width height
      && is_np height
  | Raise _ => false
  end.

(** The properties that hold of the code's scenes, for one Specification in
    binary64. *)
Definition scene_binary64_ok (bedrooms bathrooms : Z) (area : float) : bool :=
  holds (fun s =>
           service_band_on_top s
           && door_on_footprint_bottom_midpoint s
           && Nat.eqb (count is_door s) 1
           && Nat.eqb (count is_window s) 4
           && Nat.eqb (windows_on on_left_edge s) 2
           && Nat.eqb (windows_on on_right_edge s) 2
           && Nat.eqb (windows_on on_front_edge s) 0
           && room_by_room bedrooms bathrooms s
           && Z.eqb (Z.of_nat (count is_zone s)) (1 + 1 + bedrooms + bathrooms)
           && Z.eqb (Z.of_nat (count is_fixture s)) (19 + 2 * bedrooms + 3 * bathrooms)
           && (negb (Z.leb bedrooms 5 && Z.leb bathrooms 6)
               || fixtures_contained (int 0) s))
        (run bedrooms bathrooms area "Modern").

(** ** Further properties of a scene *)

Definition is_desk (r : role) : bool :=
  match r with Fixture _ Desk => true | _ => false end.
Definition is_burner (r : role) : bool :=
  match r with Fixture _ (Burner _) => true | _ => false end.
Definition is_stove (r : role) : bool :=
  match r with Fixture _ Stove => true | _ => false end.
Definition is_kitchen_sink (r : role) : bool :=
  match r with Fixture _ KitchenSink => true | _ => false end.
Definition is_counter (r : role) : bool :=
  match r with Fixture _ Counter => true | _ => false end.

Section MoreSceneProperties.

Context {num : Type} {A : PyArith num}.

(** Two patches overlap by more than [c]: each bounding box reaches more
    than [c] into the other, in both directions.  With [c] zero they share
    interior points. *)
Definition overlap (c : @value num) (a b : @shape num) : bool :=
  match bbox a, bbox b with
  | Some (ax0, ay0, ax1, ay1), Some (bx0, by0, bx1, by1) =>
      vgt ax1 (vadd bx0 c) && vgt bx1 (vadd ax0 c)
      && vgt ay1 (vadd by0 c) && vgt by1 (vadd ay0 c)
  | _, _ => false
  end.

(** No two different zones overlap by more than [c]. *)
Definition zones_disjoint (c : @value num) (s : @scene num) : bool :=
  forallb (fun p =>
    forallb (fun q =>
      match fst p, fst q with
      | Zone z, Zone z' => zone_kind_eqb z z' || negb (overlap c (snd p) (snd q))
      | _, _ => true
      end) s) s.

(** Every zone lies in the footprint shrunk by [c] on every side. *)
Definition zones_inside_footprint (c : @value num) (s : @scene num) : bool :=
  match shapes_with is_outer_wall s with
  | [wall] => forallb (fun z => within c z wall) (shapes_with is_zone s)
  | _ => false
  end.

(** The rectangle of a zone: the first call of its room. *)
Definition zone_rect (bedrooms : Z)
    (width height bedroom_height share bath_height : @value num)
    (z : zone_kind) : @shape num :=
  snd (hd (OuterWall, Text start_x start_y [])
          (room bedrooms width height bedroom_height share bath_height z)).

(** Every zone is a rectangle of non-negative width and height. *)
Definition proper (sh : @shape num) : bool :=
  match sh with
  | Rectangle _ _ w h => vle (int 0) w && vle (int 0) h
  | _ => false
  end.

Definition zones_proper (s : @scene num) : bool :=
  forallb proper (shapes_with is_zone s).

(** The rectangle [b], as drawn, has the extent of [a] in x and its
    height, and its upper side lies [gap] below the lower side of [a]. *)
Definition below (gap : @value num) (a b : @shape num) : bool :=
  match a, b, bbox a, bbox b with
  | Rectangle _ _ _ _, Rectangle _ _ _ _,
    Some (ax0, ay0, ax1, ay1), Some (bx0, by0, bx1, by1) =>
      veq ax0 bx0 && veq ax1 bx1 && veq (vsub ay1 ay0) (vsub by1 by0)
      && veq (vadd by1 gap) ay0
  | _, _, _, _ => false
  end.

(** A column of rectangles of one size, each [gap] below the one before. *)
Fixpoint stacked (gap : @value num) (l : list (@shape num)) : bool :=
  match l with
  | a :: (b :: _) as t => below gap a b && stacked gap t
  | _ => true
  end.

(** The bedrooms are stacked two units apart, bedroom 1 on top; the top of
    the first is one unit below the boundary of the bands and the last
    starts one unit above the footprint's bottom edge.  The bathrooms are
    stacked two units apart as well. *)
Definition columns_stacked (s : @scene num) : bool :=
  match shapes_with is_outer_wall s, shapes_with is_bedroom s with
  | [Rectangle _ fy _ fh], (first :: _) as beds =>
      stacked (int 2) beds
      && stacked (int 2) (shapes_with is_bathroom s)
      && match bbox first, bbox (last beds (Text fy fy [])) with
         | Some (_, _, _, y1), Some (_, y0, _, _) =>
             veq y1 (vsub (vsub (vadd fy fh) (vdiv fh (flt 25 10))) (int 1))
             && veq y0 (vadd fy (int 1))
         | _, _ => false
         end
  | _, _ => false
  end.

(** The sizes of a patch, and the sizes of the fixtures, the door and the
    windows of a scene. *)
Definition size_of (sh : @shape num) : list (@value num) :=
  match sh with
  | Rectangle _ _ w h => [w; h]
  | Circle _ _ r => [r]
  | Text _ _ _ => []
  end.

Definition furniture_sizes (s : @scene num) : list (role * list (@value num)) :=
  map (fun p => (fst p, size_of (snd p)))
      (filter (fun p => is_fixture (fst p) || is_door (fst p) || is_window (fst p)) s).

(** Every burner lies on the stove and the kitchen sink in the counter. *)
Definition kitchen_nested (s : @scene num) : bool :=
  forallb (fun b => forallb (within (int 0) b) (shapes_with is_stove s))
          (shapes_with is_burner s)
  && forallb (fun k => forallb (within (int 0) k) (shapes_with is_counter s))
             (shapes_with is_kitchen_sink s)
  && Nat.eqb (count is_stove s) 1 && Nat.eqb (count is_burner s) 4
  && Nat.eqb (count is_counter s) 1 && Nat.eqb (count is_kitchen_sink s) 1.

(** The width before it is rescaled (line 260). *)
Definition raw_width (area : @value num) : @value num :=
  vmul (np_sqrt (vdiv area (int 100))) (int 12).

End MoreSceneProperties.

Definition is_title (r : role) : bool :=
  match r with Title => true | _ => false end.

(** The routine raises ZeroDivisionError. *)
Definition raises {X : Type} (m : result X) : bool :=
  match m with
  | Raise ZeroDivisionError => true
  | _ => false
  end.

(** *** Binary64 on every input of the user interface *)

(** The same float with the same tag. *)
Definition same_value (a b : @value float) : bool :=
  PrimFloat.Leibniz.eqb (num_of a) (num_of b) && Bool.eqb (is_np a) (is_np b).

Definition among (l : list (@value float * @value float))
    (wh : @value float * @value float) : bool :=
  existsb (fun p => same_value (fst p) (fst wh) && same_value (snd p) (snd wh)) l.

(** The footprints of the [n] integer areas from [z] on, each listed once. *)
Fixpoint footprints_from (n : nat) (z : Z) (acc : list (@value float * @value float))
  : list (@value float * @value float) :=
  match n with
  | O => acc
  | S n' =>
      match footprint (PyVal (float_of_Z z) false) with
      | Ok wh => footprints_from n' (z + 1) (if among acc wh then acc else wh :: acc)
      | Raise _ => footprints_from n' (z + 1) acc
      end
  end.

(** The footprints of the integer areas that the area field accepts (500 to
    50000, lines 1184-1190): nineteen in all, with a width of 100 or one of
    its two neighbours. *)
Definition ui_footprints : list (@value float * @value float) :=
  Eval vm_compute in footprints_from (Z.to_nat 49501) 500 [].

Definition footprint_among_ui (area : Z) : bool :=
  match footprint (PyVal (float_of_Z area) false) with
  | Ok wh => among ui_footprints wh
  | Raise _ => false
  end.

(** What binary64 keeps of the layout of the zones: no two zones overlap by
    more than one unit in the last place of 100, every zone keeps one unit
    from the outline and has a width and a height, and the kitchen's
    fixtures are nested. *)
Definition zones_binary64_ok (s : @scene float) : bool :=
  zones_disjoint ulp_100 s && zones_inside_footprint (int 1) s
  && zones_proper s && kitchen_nested s.

(** The scene on a footprint whose height is a numpy scalar. *)
Definition ui_scene_ok (area : float) (style : string) (width height : @value float)
    (bedrooms bathrooms : Z) : bool :=
  let private := vsub height (vdiv height (flt 25 10)) in
  let s := floor_plan_calls bedrooms bathrooms (PyVal area false) width height style
             (vdiv private (int bedrooms))
             (vdiv private (int (bathrooms + 1)))
             (vdiv private (vadd (int bathrooms) (flt 15 10))) in
  is_np height && counts_fit (num := float) bedrooms bathrooms && zones_binary64_ok s
  && Bool.eqb (fixtures_contained (int 0) s) (bedrooms <=? 5)%Z
  && service_band_on_top s.

(** In binary64 the areas 0 and -5 and the bedroom count 0 are not rejected:
    the routine returns for the two areas, with an outline of NaN sides for
    -5; a bedroom count of 0 has a float value, and it makes the routine
    raise, with ZeroDivisionError, when the area is 0. *)
Definition invalid_inputs_ok (style : string) (bedrooms bathrooms : Z) : bool :=
  returns (run bedrooms bathrooms 0%float style)
  && holds outline_is_nan (run bedrooms bathrooms (-5)%float style)
  && counts_fit (num := float) 0 bathrooms
  && raises (run 0 bathrooms 0%float style).

(** The counts have a float value that is not zero. *)
Definition counts_ok (bedrooms bathrooms : Z) : bool :=
  counts_fit (num := float) bedrooms bathrooms
  && divisors_nonzero (num := float) bedrooms bathrooms.

(** With area 0 in binary64 the routine raises exactly when there is no
    bedroom or when [bathrooms + 1] is zero. *)
Definition zero_area_raises_ok (style : string) (bedrooms bathrooms : Z) : bool :=
  Bool.eqb (raises (run bedrooms bathrooms 0%float style))
           ((bedrooms =? 0)%Z || (bathrooms =? -1)%Z).

(** * Properties *)

(** ** The calls of a scene, whatever the arithmetic *)

Section Structure.

Context {num : Type} {A : PyArith num}.

Variables (bedrooms bathrooms : Z) (area width height : @value num) (style : string).
Variables (bedroom_height share bath_height : @value num).

Let main_height := vdiv height (flt 25 10).
Let hall_width := vdiv width (int 2).
Let bath_y_start := vsub (vsub (vadd start_y height) main_height) share.
Let calls := floor_plan_calls bedrooms bathrooms area width height style
               bedroom_height share bath_height.

Let bed_rect := bedroom_rect bedrooms hall_width bedroom_height.
Let bath_rect := bathroom_rect width hall_width bath_y_start bath_height.
Let the_room := room bedrooms width height bedroom_height share bath_height.
Let in_plan := zone_in_plan bedrooms bathrooms.

Lemma shapes_with_app (p : role -> bool) (s t : @scene num) :
  shapes_with p (s ++ t) = shapes_with p s ++ shapes_with p t.
Proof.
  unfold shapes_with. now rewrite filter_app, map_app.
Qed.

Lemma shapes_with_flat_map (p : role -> bool) (f : nat -> @scene num) (l : list nat) :
  shapes_with p (flat_map f l) = flat_map (fun n => shapes_with p (f n)) l.
Proof.
  induction l as [|n l IH]; [reflexivity|].
  cbn [flat_map]. now rewrite shapes_with_app, IH.
Qed.

Lemma flat_map_nil {X Y : Type} (f : X -> list Y) (l : list X) :
  (forall x, f x = []) -> flat_map f l = [].
Proof.
  intros Hf. induction l as [|x l IH]; [reflexivity|].
  cbn [flat_map]. now rewrite Hf, IH.
Qed.

Lemma flat_map_single {X Y : Type} (f : X -> list Y) (g : X -> Y) (l : list X) :
  (forall x, f x = [g x]) -> flat_map f l = map g l.
Proof.
  intros Hf. induction l as [|x l IH]; [reflexivity|].
  cbn [flat_map map]. now rewrite Hf, IH.
Qed.


Lemma length_range (n : Z) : List.length (range n) = Z.to_nat n.
Proof. unfold range. apply length_seq. Qed.

Lemma in_range (i : nat) (n : Z) : In i (range n) <-> (Z.of_nat i < n)%Z.
Proof.
  unfold range. rewrite in_seq. lia.
Qed.

Lemma range_pos (n : Z) : (1 <= n)%Z -> range n = 0%nat :: seq 1 (Z.to_nat n - 1).
Proof.
  intros Hn. unfold range.
  replace (Z.to_nat n) with (S (Z.to_nat n - 1)) at 1 by lia.
  reflexivity.
Qed.

Lemma shapes_with_bedroom (p : role -> bool) (n : nat) :
  (forall z f, p (Fixture z f) = false) ->
  (forall z f, p (FixtureLabel z f) = false) ->
  (forall z, p (ZoneLabel z) = false) ->
  shapes_with p (bedroom bedrooms hall_width bedroom_height n)
  = shapes_with p [hd (OuterWall, Text start_x start_y [])
                      (bedroom bedrooms hall_width bedroom_height n)].
Proof.
  intros Hf Hl Hz. unfold shapes_with, bedroom.
  destruct n; cbn [Nat.eqb app filter fst hd]; rewrite ?Hf, ?Hl, ?Hz; reflexivity.
Qed.

Lemma shapes_with_bathroom (p : role -> bool) (n : nat) :
  (forall z f, p (Fixture z f) = false) ->
  (forall z f, p (FixtureLabel z f) = false) ->
  (forall z, p (ZoneLabel z) = false) ->
  shapes_with p (bathroom width hall_width bath_y_start bath_height n)
  = shapes_with p [hd (OuterWall, Text start_x start_y [])
                      (bathroom width hall_width bath_y_start bath_height n)].
Proof.
  intros Hf Hl Hz. unfold shapes_with, bathroom.
  cbn [app filter fst hd]; rewrite ?Hf, ?Hl, ?Hz; reflexivity.
Qed.

Ltac split_calls :=
  unfold calls, floor_plan_calls;
  change (?a :: ?l) with ([a] ++ l);
  rewrite !shapes_with_app, !shapes_with_flat_map.

Ltac no_bedroom p :=
  rewrite (@flat_map_nil _ _ (fun n => shapes_with p (bedroom _ _ _ n)))
    by (intros n; rewrite shapes_with_bedroom by reflexivity; reflexivity).

Ltac no_bathroom p :=
  rewrite (@flat_map_nil _ _ (fun n => shapes_with p (bathroom _ _ _ _ n)))
    by (intros n; rewrite shapes_with_bathroom by reflexivity; reflexivity).

Lemma bedroom_zones :
  shapes_with is_bedroom calls = map bed_rect (range bedrooms).
Proof.
  split_calls.
  rewrite (@flat_map_single _ _ (fun n => shapes_with is_bedroom (bedroom _ _ _ n))
             bed_rect).
  2: { intros n. rewrite shapes_with_bedroom by reflexivity. reflexivity. }
  no_bathroom is_bedroom.
  etransitivity; [|apply app_nil_r]. reflexivity.
Qed.

Lemma bathroom_zones :
  shapes_with is_bathroom calls = map bath_rect (range bathrooms).
Proof.
  split_calls.
  rewrite (@flat_map_single _ _ (fun n => shapes_with is_bathroom (bathroom _ _ _ _ n))
             bath_rect).
  2: { intros n. rewrite shapes_with_bathroom by reflexivity. reflexivity. }
  no_bedroom is_bathroom.
  etransitivity; [|apply app_nil_r]. reflexivity.
Qed.

Lemma living_zone :
  shapes_with is_living calls
  = [ Rectangle (vadd start_x (int 1))
                (vsub (vsub (vadd start_y height) main_height) (int 1))
                (vsub hall_width (int 2)) (vsub main_height (int 2)) ].
Proof.
  split_calls. no_bedroom is_living. no_bathroom is_living. reflexivity.
Qed.

Lemma kitchen_zone :
  shapes_with is_kitchen calls
  = [ Rectangle (vadd (vadd start_x hall_width) (int 1))
                (vsub (vsub (vadd start_y height) main_height) (int 1))
                (vsub (vsub width hall_width) (int 2)) (vsub main_height (int 2)) ].
Proof.
  split_calls. no_bedroom is_kitchen. no_bathroom is_kitchen. reflexivity.
Qed.

Lemma outer_wall_shape :
  shapes_with is_outer_wall calls = [ Rectangle start_x start_y width height ].
Proof.
  split_calls. no_bedroom is_outer_wall. no_bathroom is_outer_wall. reflexivity.
Qed.


Lemma window_shapes :
  shapes_with is_window calls
  = [ window_at (vsub start_x (flt 2 10)) (vadd start_y (int 15));
      window_at (vsub start_x (flt 2 10)) (vadd start_y (int 35));
      window_at (vadd (vadd start_x width) (flt 2 10)) (vadd start_y (int 15));
      window_at (vadd (vadd start_x width) (flt 2 10)) (vadd start_y (int 35)) ].
Proof.
  split_calls. no_bedroom is_window. no_bathroom is_window. reflexivity.
Qed.

Lemma zone_shapes :
  shapes_with is_zone calls
  = shapes_with is_living calls ++ shapes_with is_kitchen calls
    ++ map bed_rect (range bedrooms) ++ map bath_rect (range bathrooms).
Proof.
  rewrite living_zone, kitchen_zone.
  split_calls.
  rewrite (@flat_map_single _ _ (fun n => shapes_with is_zone (bedroom _ _ _ n)) bed_rect).
  2: { intros n. rewrite shapes_with_bedroom by reflexivity. reflexivity. }
  rewrite (@flat_map_single _ _ (fun n => shapes_with is_zone (bathroom _ _ _ _ n)) bath_rect).
  2: { intros n. rewrite shapes_with_bathroom by reflexivity. reflexivity. }
  cbn [app]. now rewrite app_nil_r.
Qed.



Lemma zone_counts :
  count is_living calls = 1%nat /\ count is_kitchen calls = 1%nat
  /\ count is_bedroom calls = Z.to_nat bedrooms
  /\ count is_bathroom calls = Z.to_nat bathrooms
  /\ count is_zone calls = (1 + 1 + Z.to_nat bedrooms + Z.to_nat bathrooms)%nat.
Proof.
  unfold count. rewrite zone_shapes, living_zone, kitchen_zone, bedroom_zones, bathroom_zones.
  rewrite !length_app, !length_map, !length_range. cbn [List.length]. lia.
Qed.

Lemma counts_fit_parts :
  counts_fit bedrooms bathrooms = true ->
  operand bedrooms = Ok (int bedrooms)
  /\ operand (bathrooms + 1) = Ok (int (bathrooms + 1))
  /\ operand bathrooms = Ok (int bathrooms).
Proof.
  unfold counts_fit, operand. rewrite !andb_true_iff. intros [[-> ->] ->]. auto.
Qed.

Lemma layout_np :
  is_np height = true -> counts_fit bedrooms bathrooms = true ->
  layout bedrooms bathrooms area width height style
  = Ok (floor_plan_calls bedrooms bathrooms area width height style
          (vdiv (vsub height main_height) (int bedrooms))
          (vdiv (vsub height main_height) (int (bathrooms + 1)))
          (vdiv (vsub height main_height) (vadd (int bathrooms) (flt 15 10)))).
Proof.
  intros Hnp Hfit. destruct (counts_fit_parts Hfit) as (Hb & Hb1 & Hba).
  unfold layout. rewrite Hb, Hb1, Hba. cbn [bind]. unfold checked_div.
  cbn [is_np vsub vdiv vadd lift int flt]. rewrite Hnp. reflexivity.
Qed.

(** Nor can they when no divisor is zero. *)
Lemma layout_nonzero :
  counts_fit bedrooms bathrooms = true -> divisors_nonzero bedrooms bathrooms = true ->
  layout bedrooms bathrooms area width height style
  = Ok (floor_plan_calls bedrooms bathrooms area width height style
          (vdiv (vsub height main_height) (int bedrooms))
          (vdiv (vsub height main_height) (int (bathrooms + 1)))
          (vdiv (vsub height main_height) (vadd (int bathrooms) (flt 15 10)))).
Proof.
  intros Hfit Hnz. destruct (counts_fit_parts Hfit) as (Hb & Hb1 & Hba).
  unfold divisors_nonzero in Hnz. rewrite !andb_true_iff, !negb_true_iff in Hnz.
  destruct Hnz as [[Hz Hz1] Hz2].
  unfold layout. rewrite Hb, Hb1, Hba. cbn [bind]. unfold checked_div.
  cbn [num_of int]. rewrite Hz, Hz1, !andb_false_r. cbn [bind].
  rewrite Hz2, andb_false_r. reflexivity.
Qed.

(** An int without a float value makes the routine raise OverflowError. *)
Lemma layout_overflow :
  counts_fit bedrooms bathrooms = false ->
  (fits bedrooms = true ->
   returns (checked_div (vsub height main_height) (int bedrooms)) = true) ->
  (fits (bathrooms + 1) = true ->
   returns (checked_div (vsub height main_height) (int (bathrooms + 1))) = true) ->
  layout bedrooms bathrooms area width height style = Raise OverflowError.
Proof.
  unfold counts_fit, layout, operand. intros Hfit Hb Hb1.
  destruct (fits bedrooms); [|reflexivity]. cbn [bind].
  specialize (Hb eq_refl).
  destruct (checked_div _ (int bedrooms)); [|discriminate Hb]. cbn [bind].
  destruct (fits (bathrooms + 1)); [|reflexivity]. cbn [bind].
  specialize (Hb1 eq_refl).
  destruct (checked_div _ (int (bathrooms + 1))); [|discriminate Hb1]. cbn [bind].
  destruct (fits bathrooms); [discriminate Hfit|reflexivity].
Qed.



(** *** Order of the calls *)

Lemma roles_app (s t : @scene num) : roles (s ++ t) = roles s ++ roles t.
Proof. apply map_app. Qed.

Lemma roles_flat_map (f : nat -> @scene num) (l : list nat) :
  roles (flat_map f l) = flat_map (fun n => roles (f n)) l.
Proof.
  induction l as [|n l IH]; [reflexivity|].
  cbn [flat_map]. now rewrite roles_app, IH.
Qed.

Lemma living_room_items :
  room_items Living (roles (living_room height main_height hall_width)).
Proof. eexists; split; [reflexivity|split; [repeat constructor|reflexivity]]. Qed.

Lemma kitchen_items :
  room_items Kitchen (roles (kitchen width height main_height hall_width)).
Proof. eexists; split; [reflexivity|split; [repeat constructor|reflexivity]]. Qed.

Lemma bedroom_items (n : nat) :
  room_items (Bedroom n) (roles (bedroom bedrooms hall_width bedroom_height n)).
Proof.
  destruct n; (eexists; split; [reflexivity|split; [repeat constructor|reflexivity]]).
Qed.

Lemma bathroom_items (n : nat) :
  room_items (Bathroom n) (roles (bathroom width hall_width bath_y_start bath_height n)).
Proof. eexists; split; [reflexivity|split; [repeat constructor|reflexivity]]. Qed.

Lemma zone_kind_eqb_refl (z : zone_kind) : zone_kind_eqb z z = true.
Proof. destruct z; cbn; auto using Nat.eqb_refl. Qed.







(** *** The room a call belongs to *)

Lemma room_items_owner (z : zone_kind) (s : @scene num) (r : role) (sh : shape) :
  room_items z (roles s) -> In (r, sh) s -> room_of r = Some z.
Proof.
  intros (items & Heq & Hitems & _) Hin.
  apply (in_map fst) in Hin. fold (roles s) in Hin. rewrite Heq in Hin.
  cbn [fst] in Hin. destruct Hin as [<-|Hin]; [reflexivity|].
  rewrite Forall_forall in Hitems. specialize (Hitems _ Hin).
  destruct r; try discriminate Hitems; exact Hitems.
Qed.

Lemma calls_room (r : role) (sh : shape) (z : zone_kind) :
  In (r, sh) calls -> room_of r = Some z -> in_plan z /\ In (r, sh) (the_room z).
Proof.
  intros Hin Hr. unfold calls, floor_plan_calls in Hin.
  cbn [In] in Hin. rewrite !in_app_iff, !in_flat_map in Hin.
  destruct Hin as [Hin|[Hin|[Hin|[(n & Hn & Hin)|[(n & Hn & Hin)|[Hin|Hin]]]]]].
  - injection Hin as <- _. discriminate Hr.
  - assert (Ho := @room_items_owner _ _ _ _ living_room_items Hin).
    rewrite Ho in Hr. injection Hr as <-. now split.
  - assert (Ho := @room_items_owner _ _ _ _ kitchen_items Hin).
    rewrite Ho in Hr. injection Hr as <-. now split.
  - assert (Ho := @room_items_owner _ _ _ _ (bedroom_items n) Hin).
    rewrite Ho in Hr. injection Hr as <-. now split.
  - assert (Ho := @room_items_owner _ _ _ _ (bathroom_items n) Hin).
    rewrite Ho in Hr. injection Hr as <-. now split.
  - exfalso. revert Hin Hr.
    assert (Hall : Forall (fun q : role * shape => room_of (fst q) = None)
                     (openings width hall_width)) by repeat constructor.
    rewrite Forall_forall in Hall. intros Hin Hr.
    specialize (Hall _ Hin). cbn [fst] in Hall. congruence.
  - exfalso.
    assert (Hall : Forall (fun q : role * shape => room_of (fst q) = None)
                     (captions bedrooms bathrooms area width height style))
      by repeat constructor.
    rewrite Forall_forall in Hall.
    specialize (Hall _ Hin). cbn [fst] in Hall. congruence.
Qed.

(** Containment of the fixtures follows from containment room by room. *)
Lemma fixtures_contained_by_room (c : @value num) :
  (forall z f sh zr, in_plan z ->
     In (Fixture z f, sh) (the_room z) -> In (Zone z, zr) (the_room z) ->
     within c sh zr = true) ->
  fixtures_contained c calls = true.
Proof.
  intros Hroom. unfold fixtures_contained.
  apply forallb_forall. intros [r sh] Hp. cbn [fst snd].
  destruct r; try reflexivity.
  apply forallb_forall. intros [r' zr] Hq. cbn [fst snd].
  destruct r' as [|z'| | | | | | | | |]; try reflexivity.
  destruct (zone_kind_eqb z z') eqn:Hz; [|reflexivity].
  assert (z' = z) as ->.
  { destruct z, z'; try discriminate Hz; try reflexivity;
      apply Nat.eqb_eq in Hz; now subst. }
  destruct (@calls_room _ _ _ Hp eq_refl) as [Hplan Hf].
  destruct (@calls_room _ _ _ Hq eq_refl) as [_ Hzr].
  eapply Hroom; eassumption.
Qed.

End Structure.

(** ** The footprint without rounding *)

(** Unfolds the arithmetic on values down to the operations of [R]. *)
Ltac to_reals :=
  cbn [num_of is_np vadd vsub vmul vdiv lift int flt np_sqrt start_x start_y
       of_int add sub mul div sqrt real_arith orb negb andb] in *.

Section IdealFootprint.

Local Open Scope R_scope.

Lemma gt_ideal (a b : @value R) : vgt a b = true <-> num_of b < num_of a.
Proof.
  unfold vgt; cbn [ltb real_arith].
  destruct (Rlt_dec (num_of b) (num_of a)); split; intros; try easy.
Qed.

Lemma le_ideal (a b : @value R) : vle a b = true <-> num_of a <= num_of b.
Proof.
  unfold vle; cbn [leb real_arith].
  destruct (Rle_dec (num_of a) (num_of b)); split; intros; try easy.
Qed.

Lemma gt_ideal_false (a b : @value R) : vgt a b = false <-> num_of a <= num_of b.
Proof.
  unfold vgt; cbn [ltb real_arith].
  destruct (Rlt_dec (num_of b) (num_of a)); split; intros; try easy; lra.
Qed.

Lemma num_of_lower (a b : @value R) :
  num_of (lower a b) = Rmin (num_of a) (num_of b).
Proof.
  unfold lower, Rmin. destruct (vgt a b) eqn:Hgt;
    [apply gt_ideal in Hgt|apply gt_ideal_false in Hgt];
    destruct (Rle_dec (num_of a) (num_of b)); lra.
Qed.

Lemma num_of_upper (a b : @value R) :
  num_of (upper a b) = Rmax (num_of a) (num_of b).
Proof.
  unfold upper, Rmax. destruct (vgt b a) eqn:Hgt;
    [apply gt_ideal in Hgt|apply gt_ideal_false in Hgt];
    destruct (Rle_dec (num_of a) (num_of b)); lra.
Qed.

Lemma raw_dimensions_ideal (area : R) :
  0 < area ->
  raw_dimensions (PyVal area false)
  = Ok (PyVal (R_sqrt.sqrt (area / 100) * 12) true,
        PyVal (area / (R_sqrt.sqrt (area / 100) * 12)) true).
Proof.
  intros Ha.
  assert (Hr : 0 < R_sqrt.sqrt (area / 100)) by (apply sqrt_lt_R0; lra).
  unfold raw_dimensions.
  set (width := vmul _ _).
  assert (Hw : vgt width (int 0) = true).
  { apply gt_ideal. subst width. cbn. lra. }
  rewrite Hw. reflexivity.
Qed.

Lemma footprint_ideal (area : R) :
  0 < area -> footprint (PyVal area false) = Ok (W, H).
Proof.
  intros Ha.
  assert (Hr : 0 < R_sqrt.sqrt (area / 100)) by (apply sqrt_lt_R0; lra).
  assert (Hsq : area = 100 * (R_sqrt.sqrt (area / 100) * R_sqrt.sqrt (area / 100))).
  { rewrite sqrt_sqrt by lra. field. }
  unfold footprint. rewrite raw_dimensions_ideal by assumption.
  cbn [bind].
  set (r := R_sqrt.sqrt (area / 100)) in *.
  assert (Hmax : vgt (PyVal (area / (r * 12)) true) (PyVal (r * 12) true) = false).
  { apply gt_ideal_false. cbn [num_of].
    rewrite Hsq at 1.
    replace (100 * (r * r) / (r * 12)) with (r * (25 / 3)) by (field; lra).
    lra. }
  unfold py_max. rewrite Hmax.
  unfold W, H, checked_div; cbn.
  apply f_equal, f_equal2; apply (f_equal (fun x => PyVal x true)); to_reals.
  - field; lra.
  - rewrite Hsq at 1. field; lra.
Qed.

End IdealFootprint.

(** The ends of extents as minima and maxima of reals, and the cases on
    them. *)
Ltac open_ends :=
  repeat first [rewrite num_of_lower | rewrite num_of_upper | progress to_reals].

Ltac split_ends :=
  unfold Rmin, Rmax in *;
  repeat match goal with
    | |- context [Rle_dec ?a ?b] => destruct (Rle_dec a b)
    | H : context [Rle_dec ?a ?b] |- _ => destruct (Rle_dec a b)
    end.


(** ** The routine without rounding *)

Section Ideal.

Local Open Scope R_scope.

Variables (bedrooms bathrooms : Z) (area : R) (style : string).

Let ideal_scene := ideal_calls bedrooms bathrooms area style.

(** Every int has a real value. *)
Lemma fits_ideal (z : Z) : @fits R _ z = true.
Proof.
  unfold fits. cbn [is_zero sub of_int real_arith].
  destruct (Req_dec_T (IZR z - IZR z) 0); [reflexivity|lra].
Qed.

Lemma operand_ideal (z : Z) : @operand R _ z = Ok (int z).
Proof. unfold operand. now rewrite fits_ideal. Qed.

Lemma counts_fit_ideal (b ba : Z) : @counts_fit R _ b ba = true.
Proof. unfold counts_fit. now rewrite !fits_ideal. Qed.

Lemma ideal_returns :
  0 < area -> ideal bedrooms bathrooms area style = Ok ideal_scene.
Proof.
  intros Ha. unfold ideal, draw_detailed_floor_plan.
  rewrite footprint_ideal by assumption. cbn [bind].
  rewrite layout_np; [reflexivity|reflexivity|apply counts_fit_ideal].
Qed.

Lemma vle_true (a b : @value R) : num_of a <= num_of b -> vle a b = true.
Proof. apply le_ideal. Qed.

Lemma vle_false (a b : @value R) : num_of b < num_of a -> vle a b = false.
Proof.
  intros Hlt. destruct (vle a b) eqn:Hle; [|reflexivity].
  apply le_ideal in Hle. lra.
Qed.

Lemma veq_true (a b : @value R) : num_of a = num_of b -> veq a b = true.
Proof.
  intros Heq. unfold veq. rewrite !vle_true; [reflexivity| |]; lra.
Qed.

Lemma vgt_true (a b : @value R) : num_of b < num_of a -> vgt a b = true.
Proof. apply gt_ideal. Qed.

Lemma private_height_value : num_of private_height = 125 / 3.
Proof. unfold private_height, H. to_reals. field. Qed.

(** *** Containment room by room *)

Ltac in_cases H :=
  repeat (destruct H as [H|H];
          [try discriminate H; try (inversion H; subst; clear H)|]);
  try contradiction.

Ltac eval_ints :=
  repeat match goal with
    | |- context [IZR (Z.modulo ?a ?b)] =>
        let v := eval vm_compute in (Z.modulo a b) in change (Z.modulo a b) with v
    | |- context [IZR (Z.div ?a ?b)] =>
        let v := eval vm_compute in (Z.div a b) in change (Z.div a b) with v
    end.

Ltac check_within :=
  unfold within, bbox;
  repeat (apply andb_true_intro; split);
  apply vle_true; unfold private_height in *; unfold W, H in *;
  open_ends; eval_ints; split_ends; lra.

Lemma living_room_contained (f : fixture) (sh zr : @shape R) :
  let r := living_room H (vdiv H (flt 25 10)) (vdiv W (int 2)) in
  In (Fixture Living f, sh) r -> In (Zone Living, zr) r ->
  within (int 0) sh zr = true.
Proof.
  intros r Hf Hz. subst r. cbn [living_room map app In] in Hf, Hz.
  in_cases Hz. in_cases Hf; check_within.
Qed.

Lemma kitchen_contained (f : fixture) (sh zr : @shape R) :
  let r := kitchen W H (vdiv H (flt 25 10)) (vdiv W (int 2)) in
  In (Fixture Kitchen f, sh) r -> In (Zone Kitchen, zr) r ->
  within (int 0) sh zr = true.
Proof.
  intros r Hf Hz. subst r.
  cbn [kitchen range Z.to_nat Pos.to_nat Pos.iter_op Nat.add seq map app In] in Hf, Hz.
  in_cases Hz. in_cases Hf; check_within.
Qed.

Lemma div_lower (p d c : R) : 0 < d -> c * d <= p -> c <= p / d.
Proof.
  intros Hd Hc. apply Rmult_le_reg_r with d; [assumption|].
  replace (p / d * d) with p by (field; lra). assumption.
Qed.

(** A bedroom is at least 8 high when there are at most five of them, and a
    bathroom at least 5.5 high when there are at most six. *)
Lemma bedroom_height_bound :
  (1 <= bedrooms <= 5)%Z -> 8 <= num_of (vdiv private_height (int bedrooms)).
Proof.
  intros [Hlo Hhi]. apply IZR_le in Hlo, Hhi.
  cbn [vdiv lift num_of div real_arith int of_int]. rewrite private_height_value.
  apply div_lower; lra.
Qed.

Lemma bath_height_bound :
  (1 <= bathrooms <= 6)%Z ->
  55 / 10 <= num_of (vdiv private_height (vadd (int bathrooms) (flt 15 10))).
Proof.
  intros [Hlo Hhi]. apply IZR_le in Hlo, Hhi.
  cbn [vdiv vadd lift num_of div add real_arith int flt of_int].
  rewrite private_height_value.
  apply div_lower; lra.
Qed.

Lemma bedroom_contained (n : nat) (f : fixture) (sh zr : @shape R) :
  (1 <= bedrooms <= 5)%Z ->
  let r := bedroom bedrooms (vdiv W (int 2)) (vdiv private_height (int bedrooms)) n in
  In (Fixture (Bedroom n) f, sh) r -> In (Zone (Bedroom n), zr) r ->
  within (int 0) sh zr = true.
Proof.
  intros Hb r Hf Hz. subst r.
  pose proof (bedroom_height_bound Hb) as Hh.
  set (bedroom_height := vdiv private_height (int bedrooms)) in *.
  destruct bedroom_height as [bh np]. cbn [num_of] in Hh.
  destruct n; cbn [bedroom Nat.eqb app In] in Hf, Hz;
    in_cases Hz; in_cases Hf; check_within.
Qed.

Lemma bathroom_contained (n : nat) (f : fixture) (sh zr : @shape R)
    (bath_y_start : @value R) :
  (1 <= bathrooms <= 6)%Z ->
  let r := bathroom W (vdiv W (int 2)) bath_y_start
             (vdiv private_height (vadd (int bathrooms) (flt 15 10))) n in
  In (Fixture (Bathroom n) f, sh) r -> In (Zone (Bathroom n), zr) r ->
  within (int 0) sh zr = true.
Proof.
  intros Hb r Hf Hz. subst r.
  pose proof (bath_height_bound Hb) as Hh.
  set (bath_height := vdiv private_height (vadd (int bathrooms) (flt 15 10))) in *.
  destruct bath_height as [bh np]. cbn [num_of] in Hh.
  cbn [bathroom app In] in Hf, Hz;
    in_cases Hz; in_cases Hf; check_within.
Qed.


(** *** Bands, door and windows *)

Ltac decide_vle :=
  unfold private_height in *; unfold W, H in *;
  repeat match goal with
    | |- context [vle ?a ?b] =>
        first [ rewrite (@vle_true a b) by (open_ends; split_ends; lra)
              | rewrite (@vle_false a b) by (open_ends; split_ends; lra) ]
    end.


Lemma ideal_windows :
  windows_on on_left_edge ideal_scene = 2%nat
  /\ windows_on on_right_edge ideal_scene = 2%nat
  /\ windows_on on_front_edge ideal_scene = 0%nat
  /\ count is_window ideal_scene = 4%nat.
Proof.
  unfold windows_on, count, ideal_scene, ideal_calls.
  rewrite outer_wall_shape, window_shapes.
  unfold on_left_edge, on_right_edge, on_front_edge, window_at, bbox.
  cbn [filter]. decide_vle. cbn. auto.
Qed.

(** Six positions are listed, the last two of them on the front wall; the
    windows drawn are those of the first four. *)
Lemma ideal_listed_windows :
  List.length (listed_windows W) = 6%nat
  /\ List.length (filter (on_front_edge (Rectangle start_x start_y W H))
                    (listed_windows W)) = 2%nat
  /\ shapes_with is_window ideal_scene = firstn 4 (listed_windows W).
Proof.
  split; [reflexivity|]. split.
  - unfold listed_windows, window_positions. cbn [map fst snd].
    unfold on_front_edge, window_at, bbox.
    cbn [filter]. decide_vle. cbn. reflexivity.
  - unfold ideal_scene, ideal_calls. rewrite window_shapes. reflexivity.
Qed.

(** The slots of the two columns. *)
Lemma bedroom_slot (n : nat) :
  (1 <= bedrooms)%Z -> In n (range bedrooms) ->
  let bedroom_height := 125 / 3 / IZR bedrooms in
  let bed_y := 10 + IZR (bedrooms - Z.of_nat n - 1) * bedroom_height in
  0 < bedroom_height /\ 10 <= bed_y /\ bed_y + bedroom_height <= 10 + 125 / 3.
Proof.
  intros Hb Hn bedroom_height bed_y. apply in_range in Hn.
  assert (Hx : 1 <= IZR bedrooms) by (apply IZR_le in Hb; exact Hb).
  assert (Hk : 0 <= IZR (bedrooms - Z.of_nat n - 1)) by (apply IZR_le; lia).
  assert (Hk' : IZR (bedrooms - Z.of_nat n - 1) <= IZR bedrooms - 1).
  { rewrite <- minus_IZR. apply IZR_le. lia. }
  assert (Hq : bedroom_height * IZR bedrooms = 125 / 3)
    by (unfold bedroom_height; field; lra).
  assert (Hpos : 0 < bedroom_height)
    by (unfold bedroom_height; apply Rdiv_lt_0_compat; lra).
  subst bed_y. repeat split; [exact Hpos| |]; nra.
Qed.

Lemma bedroom_slots_apart (n m : nat) :
  (1 <= bedrooms)%Z -> (n < m)%nat ->
  let bedroom_height := 125 / 3 / IZR bedrooms in
  10 + IZR (bedrooms - Z.of_nat m - 1) * bedroom_height + bedroom_height
  <= 10 + IZR (bedrooms - Z.of_nat n - 1) * bedroom_height.
Proof.
  intros Hb Hnm bedroom_height.
  assert (Hx : 1 <= IZR bedrooms) by (apply IZR_le in Hb; exact Hb).
  assert (Hpos : 0 < bedroom_height)
    by (unfold bedroom_height; apply Rdiv_lt_0_compat; lra).
  assert (Hk : IZR (bedrooms - Z.of_nat m - 1) + 1 <= IZR (bedrooms - Z.of_nat n - 1)).
  { rewrite <- plus_IZR. apply IZR_le. lia. }
  nra.
Qed.

Lemma bathroom_slot (n : nat) :
  (1 <= bathrooms)%Z -> In n (range bathrooms) ->
  let bath_height := 125 / 3 / (IZR bathrooms + 15 / 10) in
  let bath_y := 10 + 125 / 3 - 125 / 3 / IZR (bathrooms + 1)
                - IZR (Z.of_nat n) * bath_height in
  0 < bath_height /\ 10 <= bath_y /\ bath_y + bath_height <= 10 + 125 / 3.
Proof.
  intros Hb Hn bath_height bath_y. apply in_range in Hn.
  assert (Hx : 1 <= IZR bathrooms) by (apply IZR_le in Hb; exact Hb).
  assert (Hm : 0 <= IZR (Z.of_nat n)) by (apply IZR_le; lia).
  assert (Hm' : IZR (Z.of_nat n) <= IZR bathrooms - 1).
  { rewrite <- minus_IZR. apply IZR_le. lia. }
  subst bath_y bath_height. rewrite plus_IZR.
  set (x := IZR bathrooms) in *. set (m := IZR (Z.of_nat n)) in *.
  set (t := 125 / 3 / (x + 15 / 10)). set (s := 125 / 3 / (x + 1)).
  assert (Ht : t * (x + 15 / 10) = 125 / 3) by (unfold t; field; lra).
  assert (Hs : s * (x + 1) = 125 / 3) by (unfold s; field; lra).
  assert (Htpos : 0 < t) by (apply Rdiv_lt_0_compat; lra).
  assert (Hspos : 0 < s) by (apply Rdiv_lt_0_compat; lra).
  assert (Hts : t <= s) by nra.
  assert (Hst : s <= 5 / 4 * t) by nra.
  assert (Hmt : m * t <= (x - 1) * t) by nra.
  assert (Hmt0 : 0 <= m * t) by nra.
  repeat split; [exact Htpos| |]; nra.
Qed.

Lemma bathroom_slots_apart (n m : nat) :
  (1 <= bathrooms)%Z -> (n < m)%nat ->
  let bath_height := 125 / 3 / (IZR bathrooms + 15 / 10) in
  IZR (Z.of_nat n) * bath_height + bath_height <= IZR (Z.of_nat m) * bath_height.
Proof.
  intros Hb Hnm bath_height.
  assert (Hx : 1 <= IZR bathrooms) by (apply IZR_le in Hb; exact Hb).
  assert (Hpos : 0 < bath_height)
    by (unfold bath_height; apply Rdiv_lt_0_compat; lra).
  assert (Hk : IZR (Z.of_nat n) + 1 <= IZR (Z.of_nat m)).
  { rewrite <- plus_IZR. apply IZR_le. lia. }
  nra.
Qed.


End Ideal.

(** ** Every scene the routine returns, whatever the arithmetic *)

Section Returned.

Context {num : Type} {A : PyArith num}.

Variables (bedrooms bathrooms : Z) (area : num) (style : string).

Lemma layout_calls (width height : @value num) (s : @scene num) :
  layout bedrooms bathrooms (PyVal area false) width height style = Ok s ->
  exists bedroom_height share bath_height,
    s = floor_plan_calls bedrooms bathrooms (PyVal area false) width height style
          bedroom_height share bath_height.
Proof.
  unfold layout, operand. intros Hs.
  destruct (fits bedrooms); [|discriminate Hs]. cbn [bind] in Hs.
  destruct (checked_div _ (int bedrooms)) as [bedroom_height|]; [|discriminate Hs].
  cbn [bind] in Hs.
  destruct (fits (bathrooms + 1)); [|discriminate Hs]. cbn [bind] in Hs.
  destruct (checked_div _ (int (bathrooms + 1))) as [share|]; [|discriminate Hs].
  cbn [bind] in Hs.
  destruct (fits bathrooms); [|discriminate Hs]. cbn [bind] in Hs.
  destruct (checked_div _ (vadd _ _)) as [bath_height|]; [|discriminate Hs].
  cbn [bind] in Hs. injection Hs as <-. now eauto.
Qed.

Lemma draw_calls (s : @scene num) :
  draw_detailed_floor_plan bedrooms bathrooms area style = Ok s ->
  exists width height bedroom_height share bath_height,
    s = floor_plan_calls bedrooms bathrooms (PyVal area false) width height style
          bedroom_height share bath_height.
Proof.
  unfold draw_detailed_floor_plan. intros Hs.
  destruct (footprint _) as [[width height]|]; [|discriminate Hs].
  cbn [bind] in Hs. apply layout_calls in Hs.
  destruct Hs as (bh & sh & bath & ->). now eauto 6.
Qed.

Lemma returned_zone_counts (s : @scene num) :
  draw_detailed_floor_plan bedrooms bathrooms area style = Ok s ->
  count is_living s = 1%nat /\ count is_kitchen s = 1%nat
  /\ count is_bedroom s = Z.to_nat bedrooms
  /\ count is_bathroom s = Z.to_nat bathrooms
  /\ count is_zone s = (1 + 1 + Z.to_nat bedrooms + Z.to_nat bathrooms)%nat.
Proof.
  intros Hs. apply draw_calls in Hs.
  destruct Hs as (w & h & bh & sh & bath & ->). apply zone_counts.
Qed.




(** The routine returns as soon as the height of the footprint is a numpy
    scalar and the counts have a float value: none of its divisions can
    raise then. *)
Lemma returns_with_numpy_height (width height : @value num) :
  footprint (PyVal area false) = Ok (width, height) -> is_np height = true ->
  counts_fit bedrooms bathrooms = true ->
  exists s, draw_detailed_floor_plan bedrooms bathrooms area style = Ok s.
Proof.
  intros Hf Hnp Hfit. unfold draw_detailed_floor_plan. rewrite Hf. cbn [bind].
  rewrite layout_np by assumption. now eauto.
Qed.

(** With such a height, a count without a float value makes it raise
    OverflowError. *)
Lemma overflows_with_numpy_height (width height : @value num) :
  footprint (PyVal area false) = Ok (width, height) -> is_np height = true ->
  counts_fit bedrooms bathrooms = false ->
  draw_detailed_floor_plan bedrooms bathrooms area style = Raise OverflowError.
Proof.
  intros Hf Hnp Hfit. unfold draw_detailed_floor_plan. rewrite Hf. cbn [bind].
  apply layout_overflow; [exact Hfit| |]; intros _; unfold checked_div;
    cbn [is_np vsub vdiv lift]; rewrite Hnp; reflexivity.
Qed.

End Returned.

(** ** Area zero, without rounding *)

Section ZeroArea.

Local Open Scope R_scope.

Lemma raw_dimensions_zero :
  raw_dimensions (PyVal 0 false) = Ok (PyVal 0 true, @int R _ 12).
Proof.
  unfold raw_dimensions.
  assert (Hw : vmul (np_sqrt (vdiv (PyVal 0 false) (int 100))) (int 12) = PyVal 0 true).
  { unfold vmul, vdiv, lift, np_sqrt. to_reals.
    apply (f_equal (fun x => PyVal x true)).
    replace (0 / 100) with 0 by lra. rewrite sqrt_0. lra. }
  rewrite Hw.
  rewrite (proj2 (gt_ideal_false (PyVal 0 true) (int 0))) by (to_reals; lra).
  reflexivity.
Qed.

Lemma footprint_zero :
  footprint (PyVal 0 false) = Ok (PyVal 0 true, PyVal 100 false).
Proof.
  unfold footprint. rewrite raw_dimensions_zero. cbn [bind].
  unfold py_max. rewrite (vgt_true (int 12) (PyVal 0 true)) by (to_reals; lra).
  unfold checked_div. cbn [is_np int orb negb andb num_of of_int real_arith is_zero].
  destruct (Req_dec_T 12 0) as [Heq|_]; [lra|].
  cbn [bind]. unfold vmul, vdiv, lift. to_reals.
  apply f_equal, f_equal2; [apply (f_equal (fun x => PyVal x true))
                           |apply (f_equal (fun x => PyVal x false))]; lra.
Qed.

Lemma checked_div_ideal (a b : @value R) :
  num_of b <> 0 -> checked_div a b = Ok (vdiv a b).
Proof.
  intros Hb. unfold checked_div. cbn [is_zero real_arith].
  destruct (Req_dec_T (num_of b) 0) as [Heq|_]; [contradiction|].
  now rewrite andb_false_r.
Qed.

End ZeroArea.

(** ** Binary64 on the inputs of the user interface *)

Lemma all_from_spec (P : Z -> bool) (n : nat) (z k : Z) :
  all_from n z P = true -> (z <= k < z + Z.of_nat n)%Z -> P k = true.
Proof.
  revert z. induction n as [|n IH]; intros z Hall Hk; [lia|].
  cbn [all_from] in Hall. apply andb_true_iff in Hall. destruct Hall as [Hz Hrest].
  destruct (Z.eq_dec k z) as [->|Hne]; [exact Hz|].
  apply (IH (z + 1)%Z); [exact Hrest|lia].
Qed.

(** For every integer area that the area field of the user interface
    accepts (500 to 50000, lines 1184-1190), the binary64 footprint has
    positive sides, a larger side within one unit in the last place of 100
    and an aspect ratio within 2^-49 of 1.44. *)
Lemma footprint_binary64_on_ui_range (area : Z) :
  (500 <= area <= 50000)%Z -> footprint_binary64_ok area = true.
Proof.
  intros Harea.
  apply (@all_from_spec footprint_binary64_ok (Z.to_nat 49501) 500); [|lia].
  vm_compute. reflexivity.
Qed.

Lemma footprint_binary64_parts (area : Z) :
  footprint_binary64_ok area = true ->
  footprint_near_budget ulp_100 (PyVal (float_of_Z area) false) = true
  /\ aspect_ratio_near ulps_ratio (PyVal (float_of_Z area) false) = true
  /\ exists width height,
       footprint (PyVal (float_of_Z area) false) = Ok (width, height)
       /\ is_np height = true.
Proof.
  unfold footprint_binary64_ok, footprint_near_budget, aspect_ratio_near.
  destruct (footprint _) as [[w h]|]; [|discriminate].
  rewrite !andb_true_iff. intros [[Hs Hr] Hnp]. now eauto 6.
Qed.

Lemma run_returns_on_ui_range (bedrooms bathrooms area : Z) (style : string) :
  (500 <= area <= 50000)%Z -> counts_fit (num := float) bedrooms bathrooms = true ->
  exists s, run bedrooms bathrooms (float_of_Z area) style = Ok s.
Proof.
  intros Harea Hfit.
  destruct (@footprint_binary64_parts area (footprint_binary64_on_ui_range Harea))
    as (_ & _ & w & h & Hf & Hnp).
  unfold run. eapply returns_with_numpy_height; eassumption.
Qed.


(** For the areas 500, 1000, ..., 50000 and for every number of bedrooms and
    bathrooms that the sliders of the user interface allow (1..8 and 1..5,
    lines 1180-1181), the binary64 scene has the properties proved below
    without rounding. *)
Lemma scenes_binary64_on_ui_counts :
  forallb (fun k =>
    forallb (fun bedrooms =>
      forallb (fun bathrooms =>
                 scene_binary64_ok bedrooms bathrooms (float_of_Z (500 * Z.of_nat k)))
              [1; 2; 3; 4; 5]%Z)
      [1; 2; 3; 4; 5; 6; 7; 8]%Z)
    (seq 1 100) = true.
Proof. vm_compute. reflexivity. Qed.

(** ** Further properties of the routine *)

Local Open Scope string_scope.
Local Open Scope list_scope.

(** ** Calls of a scene, continued *)

Section MoreStructure.

Context {num : Type} {A : PyArith num}.

Lemma filter_flat_map {X Y : Type} (p : Y -> bool) (f : X -> list Y) (l : list X) :
  filter p (flat_map f l) = flat_map (fun x => filter p (f x)) l.
Proof.
  induction l as [|x l IH]; [reflexivity|].
  cbn [flat_map]. now rewrite filter_app, IH.
Qed.

Lemma flat_map_nil_in {X Y : Type} (f : X -> list Y) (l : list X) :
  (forall x, In x l -> f x = []) -> flat_map f l = [].
Proof.
  intros Hf. induction l as [|x l IH]; [reflexivity|].
  cbn [flat_map]. rewrite Hf by now left. rewrite IH; [reflexivity|].
  intros y Hy. apply Hf. now right.
Qed.

Lemma range_nonpos (n : Z) : (n <= 0)%Z -> range n = [].
Proof. intros Hn. unfold range. now replace (Z.to_nat n) with 0%nat by lia. Qed.

Variables (bedrooms bathrooms : Z) (area width height : @value num) (style : string).
Variables (bedroom_height share bath_height : @value num).

Let calls := floor_plan_calls bedrooms bathrooms area width height style
               bedroom_height share bath_height.

Lemma calls_as_blocks :
  calls
  = ([(OuterWall, Rectangle start_x start_y width height)] : @scene num)
    ++ living_room height (vdiv height (flt 25 10)) (vdiv width (int 2))
    ++ kitchen width height (vdiv height (flt 25 10)) (vdiv width (int 2))
    ++ flat_map (bedroom bedrooms (vdiv width (int 2)) bedroom_height) (range bedrooms)
    ++ flat_map (bathroom width (vdiv width (int 2))
                   (vsub (vsub (vadd start_y height) (vdiv height (flt 25 10))) share)
                   bath_height) (range bathrooms)
    ++ openings width (vdiv width (int 2))
    ++ captions bedrooms bathrooms area width height style.
Proof. reflexivity. Qed.

(** The desk belongs to the first bedroom and to no other room. *)
Lemma desk_roles :
  filter is_desk (roles calls)
  = if (1 <=? bedrooms)%Z then [Fixture (Bedroom 0) Desk] else [].
Proof.
  rewrite calls_as_blocks.
  rewrite !roles_app, !roles_flat_map, !filter_app, !filter_flat_map.
  rewrite (@flat_map_nil _ _ (fun n => filter is_desk (roles (bathroom _ _ _ _ n))))
    by reflexivity.
  destruct (Z.leb_spec 1 bedrooms) as [Hb|Hb].
  - rewrite (range_pos Hb). cbn [flat_map].
    rewrite (@flat_map_nil_in _ _ (fun n => filter is_desk (roles (bedroom _ _ _ n)))).
    + reflexivity.
    + intros n Hn. apply in_seq in Hn. destruct n; [lia|reflexivity].
  - rewrite range_nonpos by lia. reflexivity.
Qed.

Lemma furniture_sizes_app (s t : @scene num) :
  furniture_sizes (s ++ t) = furniture_sizes s ++ furniture_sizes t.
Proof. unfold furniture_sizes. now rewrite filter_app, map_app. Qed.

Lemma furniture_sizes_flat_map (f : nat -> @scene num) (l : list nat) :
  furniture_sizes (flat_map f l) = flat_map (fun n => furniture_sizes (f n)) l.
Proof.
  induction l as [|n l IH]; [reflexivity|].
  cbn [flat_map]. now rewrite furniture_sizes_app, IH.
Qed.

End MoreStructure.

(** The sizes of the fixtures, the door and the windows depend on nothing
    but the numbers of bedrooms and bathrooms. *)
Lemma furniture_sizes_fixed {num : Type} {A : PyArith num} (bedrooms bathrooms : Z)
    (area width height : @value num) (style : string)
    (bedroom_height share bath_height : @value num)
    (area' width' height' : @value num) (style' : string)
    (bedroom_height' share' bath_height' : @value num) :
  furniture_sizes (floor_plan_calls bedrooms bathrooms area width height style
                     bedroom_height share bath_height)
  = furniture_sizes (floor_plan_calls bedrooms bathrooms area' width' height' style'
                       bedroom_height' share' bath_height').
Proof.
  rewrite !calls_as_blocks, !furniture_sizes_app, !furniture_sizes_flat_map.
  do 3 (apply (f_equal2 (@app _)); [reflexivity|]).
  apply (f_equal2 (@app _)).
  { apply flat_map_ext. intros n. destruct n; reflexivity. }
  apply (f_equal2 (@app _)); [|reflexivity].
  apply flat_map_ext. intros n. reflexivity.
Qed.

(** ** The rectangle of a zone *)

Section ZoneRectangles.

Context {num : Type} {A : PyArith num}.

Variables (bedrooms bathrooms : Z) (area width height : @value num) (style : string).
Variables (bedroom_height share bath_height : @value num).

Let calls := floor_plan_calls bedrooms bathrooms area width height style
               bedroom_height share bath_height.

Lemma room_items_of_room (z : zone_kind) :
  room_items z (roles (room bedrooms width height bedroom_height share bath_height z)).
Proof.
  destruct z; cbn [room].
  - apply living_room_items.
  - apply kitchen_items.
  - apply bedroom_items.
  - apply bathroom_items.
Qed.

Lemma zone_is_head (z : zone_kind) (l : @scene num) (sh : @shape num)
    (d : @primitive num) :
  room_items z (roles l) -> In (Zone z, sh) l -> sh = snd (hd d l).
Proof.
  intros (items & Heq & Hitems & _) Hin.
  destruct l as [|p l]; [contradiction|].
  cbn [roles map] in Heq. injection Heq as Hp Hl.
  destruct Hin as [->|Hin]; [reflexivity|].
  apply (in_map fst) in Hin. cbn [fst] in Hin.
  fold (roles l) in Hl. unfold roles in Hl. rewrite Hl in Hin.
  rewrite Forall_forall in Hitems. specialize (Hitems _ Hin). discriminate Hitems.
Qed.

(** A zone rectangle of the scene is the rectangle of a zone of the plan. *)
Lemma zone_of_calls (z : zone_kind) (sh : @shape num) :
  In (Zone z, sh) calls ->
  zone_in_plan bedrooms bathrooms z
  /\ sh = zone_rect bedrooms width height bedroom_height share bath_height z.
Proof.
  intros Hin.
  destruct (@calls_room _ _ bedrooms bathrooms area width height style
              bedroom_height share bath_height _ _ z Hin eq_refl) as [Hplan Hroom].
  split; [exact Hplan|].
  unfold zone_rect. eapply zone_is_head; [apply room_items_of_room|exact Hroom].
Qed.

End ZoneRectangles.

(** ** Zones without rounding *)

Section IdealZones.

Local Open Scope R_scope.

Variables (bedrooms bathrooms : Z) (area : R) (style : string).

Let ideal_scene := ideal_calls bedrooms bathrooms area style.

Ltac reals :=
  unfold private_height in *; unfold W, H in *; to_reals.

Lemma vgt_false (a b : @value R) : num_of a <= num_of b -> vgt a b = false.
Proof. apply gt_ideal_false. Qed.

Lemma ideal_zone_shapes :
  shapes_with is_zone ideal_scene
  = zone_rect bedrooms W H (vdiv private_height (int bedrooms))
      (vdiv private_height (int (bathrooms + 1)))
      (vdiv private_height (vadd (int bathrooms) (flt 15 10))) Living
    :: zone_rect bedrooms W H (vdiv private_height (int bedrooms))
         (vdiv private_height (int (bathrooms + 1)))
         (vdiv private_height (vadd (int bathrooms) (flt 15 10))) Kitchen
    :: map (fun n => zone_rect bedrooms W H (vdiv private_height (int bedrooms))
                       (vdiv private_height (int (bathrooms + 1)))
                       (vdiv private_height (vadd (int bathrooms) (flt 15 10)))
                       (Bedroom n)) (range bedrooms)
    ++ map (fun n => zone_rect bedrooms W H (vdiv private_height (int bedrooms))
                       (vdiv private_height (int (bathrooms + 1)))
                       (vdiv private_height (vadd (int bathrooms) (flt 15 10)))
                       (Bathroom n)) (range bathrooms).
Proof.
  unfold ideal_scene, ideal_calls.
  rewrite zone_shapes, living_zone, kitchen_zone. reflexivity.
Qed.

Let zone (z : zone_kind) : @shape R :=
  zone_rect bedrooms W H (vdiv private_height (int bedrooms))
    (vdiv private_height (int (bathrooms + 1)))
    (vdiv private_height (vadd (int bathrooms) (flt 15 10))) z.

Lemma ideal_zone (z : zone_kind) (sh : @shape R) :
  In (Zone z, sh) ideal_scene -> zone_in_plan bedrooms bathrooms z /\ sh = zone z.
Proof.
  unfold ideal_scene, ideal_calls, zone. apply zone_of_calls.
Qed.

Lemma in_range_pos (n : nat) (k : Z) : In n (range k) -> (1 <= k)%Z.
Proof. intros Hn. apply in_range in Hn. lia. Qed.

Ltac open_zone :=
  unfold zone, zone_rect;
  cbn [room living_room kitchen bedroom bathroom app hd snd].

(** With at most 20 bedrooms and 19 bathrooms every room is at least 2
    high, so that its rectangle, which is 2 lower, has a height. *)
Lemma bedroom_place (n : nat) :
  (bedrooms <= 20)%Z -> In n (range bedrooms) ->
  let bedroom_height := 125 / 3 / IZR bedrooms in
  let bed_y := 10 + IZR (bedrooms - Z.of_nat n - 1) * bedroom_height in
  2 <= bedroom_height /\ 10 <= bed_y /\ bed_y + bedroom_height <= 10 + 125 / 3.
Proof.
  intros Hb Hn. pose proof (in_range_pos _ _ Hn) as Hb1.
  destruct (@bedroom_slot bedrooms n Hb1 Hn) as (_ & Hlo & Hhi).
  cbv zeta. split; [|split; assumption].
  apply IZR_le in Hb, Hb1. apply div_lower; lra.
Qed.

Lemma bathroom_place (n : nat) :
  (bathrooms <= 19)%Z -> In n (range bathrooms) ->
  let bath_height := 125 / 3 / (IZR bathrooms + 15 / 10) in
  let bath_y := 10 + 125 / 3 - 125 / 3 / IZR (bathrooms + 1)
                - IZR (Z.of_nat n) * bath_height in
  2 <= bath_height /\ 10 <= bath_y /\ bath_y + bath_height <= 10 + 125 / 3.
Proof.
  intros Hb Hn. pose proof (in_range_pos _ _ Hn) as Hb1.
  destruct (@bathroom_slot bathrooms n Hb1 Hn) as (_ & Hlo & Hhi).
  cbv zeta. split; [|split; assumption].
  apply IZR_le in Hb, Hb1. apply div_lower; lra.
Qed.

Ltac no_overlap :=
  unfold overlap, bbox;
  first
    [ apply andb_false_iff; right; apply vgt_false; reals; open_ends; split_ends; lra
    | apply andb_false_iff; left; apply andb_false_iff; right;
      apply vgt_false; reals; open_ends; split_ends; lra
    | apply andb_false_iff; left; apply andb_false_iff; left;
      apply andb_false_iff; right; apply vgt_false; reals; open_ends; split_ends; lra
    | apply andb_false_iff; left; apply andb_false_iff; left;
      apply andb_false_iff; left; apply vgt_false; reals; open_ends; split_ends; lra ].

(** Two different zones of a plan with at most 20 bedrooms and 19 bathrooms
    do not overlap. *)
Lemma zones_apart (z z' : zone_kind) :
  (bedrooms <= 20)%Z -> (bathrooms <= 19)%Z ->
  zone_in_plan bedrooms bathrooms z -> zone_in_plan bedrooms bathrooms z' ->
  zone_kind_eqb z z' = false -> overlap (int 0) (zone z) (zone z') = false.
Proof.
  intros Hb Hba Hz Hz' Hne.
  destruct z as [| |n|n], z' as [| |m|m]; cbn [zone_in_plan zone_kind_eqb] in *;
    try discriminate Hne; open_zone.
  - no_overlap.
  - pose proof (@bedroom_place m Hb Hz') as Hs. cbv zeta in Hs. no_overlap.
  - no_overlap.
  - no_overlap.
  - no_overlap.
  - pose proof (@bathroom_place m Hba Hz') as Hs. cbv zeta in Hs. no_overlap.
  - pose proof (@bedroom_place n Hb Hz) as Hs. cbv zeta in Hs. no_overlap.
  - no_overlap.
  - apply Nat.eqb_neq in Hne.
    pose proof (@bedroom_place n Hb Hz) as Hp. cbv zeta in Hp.
    destruct (Nat.lt_total n m) as [Hlt|[Heq|Hlt]]; [|contradiction|].
    + pose proof (@bedroom_slots_apart bedrooms n m (in_range_pos _ _ Hz) Hlt) as Hs.
      cbv zeta in Hs. no_overlap.
    + pose proof (@bedroom_slots_apart bedrooms m n (in_range_pos _ _ Hz) Hlt) as Hs.
      cbv zeta in Hs. no_overlap.
  - no_overlap.
  - no_overlap.
  - pose proof (@bathroom_place n Hba Hz) as Hs. cbv zeta in Hs. no_overlap.
  - no_overlap.
  - apply Nat.eqb_neq in Hne.
    pose proof (@bathroom_place n Hba Hz) as Hp. cbv zeta in Hp.
    destruct (Nat.lt_total n m) as [Hlt|[Heq|Hlt]]; [|contradiction|].
    + pose proof (@bathroom_slots_apart bathrooms n m (in_range_pos _ _ Hz) Hlt) as Hs.
      cbv zeta in Hs. no_overlap.
    + pose proof (@bathroom_slots_apart bathrooms m n (in_range_pos _ _ Hz) Hlt) as Hs.
      cbv zeta in Hs. no_overlap.
Qed.

Lemma ideal_zones_disjoint :
  (bedrooms <= 20)%Z -> (bathrooms <= 19)%Z ->
  zones_disjoint (int 0) ideal_scene = true.
Proof.
  intros Hb Hba. unfold zones_disjoint.
  apply forallb_forall. intros [r sh] Hp. apply forallb_forall. intros [r' sh'] Hq.
  cbn [fst snd]. destruct r as [|z| | | | | | | | |]; try reflexivity.
  destruct r' as [|z'| | | | | | | | |]; try reflexivity.
  destruct (zone_kind_eqb z z') eqn:Hne; [reflexivity|].
  apply ideal_zone in Hp, Hq. destruct Hp as [Hz ->], Hq as [Hz' ->].
  cbn [orb]. now rewrite zones_apart.
Qed.

Ltac inside :=
  unfold within, bbox;
  repeat (apply andb_true_intro; split);
  apply vle_true; reals; open_ends; split_ends; lra.

(** Every zone of such a plan keeps one unit from the outline. *)
Lemma zone_inside (z : zone_kind) :
  (bedrooms <= 20)%Z -> (bathrooms <= 19)%Z ->
  zone_in_plan bedrooms bathrooms z ->
  within (int 1) (zone z) (Rectangle start_x start_y W H) = true.
Proof.
  intros Hb Hba Hz. destruct z as [| |n|n]; cbn [zone_in_plan] in Hz; open_zone.
  - inside.
  - inside.
  - pose proof (@bedroom_place n Hb Hz) as Hs. cbv zeta in Hs. inside.
  - pose proof (@bathroom_place n Hba Hz) as Hs. cbv zeta in Hs. inside.
Qed.

Lemma zone_shapes_in_plan (sh : @shape R) :
  In sh (shapes_with is_zone ideal_scene) <->
  exists z, zone_in_plan bedrooms bathrooms z /\ sh = zone z.
Proof.
  rewrite ideal_zone_shapes. fold (zone Living) (zone Kitchen).
  cbn [In]. rewrite in_app_iff, !in_map_iff. split.
  - intros [<-|[<-|[(n & <- & Hn)|(n & <- & Hn)]]].
    + now exists Living.
    + now exists Kitchen.
    + now exists (Bedroom n).
    + now exists (Bathroom n).
  - intros ([| |n|n] & Hz & ->); cbn [zone_in_plan] in Hz.
    + now left.
    + now right; left.
    + right; right; left. now exists n.
    + right; right; right. now exists n.
Qed.

Lemma ideal_zones_inside_footprint :
  (bedrooms <= 20)%Z -> (bathrooms <= 19)%Z ->
  zones_inside_footprint (int 1) ideal_scene = true.
Proof.
  intros Hb Hba. unfold zones_inside_footprint.
  assert (Hw : shapes_with is_outer_wall ideal_scene
               = [Rectangle (@start_x R _) start_y W H]).
  { unfold ideal_scene, ideal_calls. apply outer_wall_shape. }
  rewrite Hw. apply forallb_forall. intros sh Hsh.
  apply zone_shapes_in_plan in Hsh. destruct Hsh as (z & Hz & ->).
  now apply zone_inside.
Qed.

(** *** Rooms too many to have a height *)

Lemma proper_service (z : zone_kind) :
  z = Living \/ z = Kitchen -> proper (zone z) = true.
Proof.
  intros [->| ->]; open_zone; unfold proper;
    apply andb_true_intro; split; apply vle_true; reals; lra.
Qed.

Lemma proper_bedroom (n : nat) :
  (1 <= bedrooms)%Z -> (proper (zone (Bedroom n)) = true <-> (bedrooms <= 20)%Z).
Proof.
  intros Hb. assert (Hx : 1 <= IZR bedrooms) by (apply IZR_le in Hb; exact Hb).
  assert (Hq : 125 / 3 / IZR bedrooms * IZR bedrooms = 125 / 3) by (field; lra).
  open_zone. unfold proper. rewrite andb_true_iff, !le_ideal. reals. split.
  - intros [_ Hh].
    assert (Hlt : IZR bedrooms < IZR 21) by nra.
    apply lt_IZR in Hlt. lia.
  - intros Hle. apply IZR_le in Hle. split; [lra|].
    assert (Hd : 2 <= 125 / 3 / IZR bedrooms) by (apply div_lower; lra).
    lra.
Qed.

Lemma proper_bathroom (n : nat) :
  (1 <= bathrooms)%Z -> (proper (zone (Bathroom n)) = true <-> (bathrooms <= 19)%Z).
Proof.
  intros Hb. assert (Hx : 1 <= IZR bathrooms) by (apply IZR_le in Hb; exact Hb).
  assert (Hq : 125 / 3 / (IZR bathrooms + 15 / 10) * (IZR bathrooms + 15 / 10) = 125 / 3)
    by (field; lra).
  open_zone. unfold proper. rewrite andb_true_iff, !le_ideal. reals. split.
  - intros [_ Hh].
    assert (Hlt : IZR bathrooms < IZR 20) by nra.
    apply lt_IZR in Hlt. lia.
  - intros Hle. apply IZR_le in Hle. split; [lra|].
    assert (Hd : 2 <= 125 / 3 / (IZR bathrooms + 15 / 10)) by (apply div_lower; lra).
    lra.
Qed.

Lemma ideal_zones_proper :
  zones_proper ideal_scene = true <-> (bedrooms <= 20)%Z /\ (bathrooms <= 19)%Z.
Proof.
  unfold zones_proper. rewrite forallb_forall. split.
  - intros Hall. split.
    + destruct (Z.le_gt_cases 1 bedrooms) as [Hb|Hb]; [|lia].
      apply (proper_bedroom 0 Hb). apply Hall. apply zone_shapes_in_plan.
      exists (Bedroom 0). split; [|reflexivity]. apply in_range. lia.
    + destruct (Z.le_gt_cases 1 bathrooms) as [Hb|Hb]; [|lia].
      apply (proper_bathroom 0 Hb). apply Hall. apply zone_shapes_in_plan.
      exists (Bathroom 0). split; [|reflexivity]. apply in_range. lia.
  - intros [Hb Hba] sh Hsh. apply zone_shapes_in_plan in Hsh.
    destruct Hsh as ([| |n|n] & Hz & ->); cbn [zone_in_plan] in Hz.
    + apply proper_service. now left.
    + apply proper_service. now right.
    + apply proper_bedroom; [exact (in_range_pos _ _ Hz)|exact Hb].
    + apply proper_bathroom; [exact (in_range_pos _ _ Hz)|exact Hba].
Qed.

End IdealZones.

(** ** Columns and the kitchen, whatever the arithmetic *)

Section MoreShapes.

Context {num : Type} {A : PyArith num}.

Lemma stacked_map (gap : @value num) (f : nat -> @shape num) (k a : nat) :
  (forall n, below gap (f n) (f (S n)) = true) -> stacked gap (map f (seq a k)) = true.
Proof.
  intros Hf. revert a. induction k as [|k IH]; intros a; [reflexivity|].
  destruct k as [|k]; [reflexivity|].
  specialize (IH (S a)). cbn [seq map] in IH |- *. cbn [stacked].
  rewrite Hf. exact IH.
Qed.

Lemma last_map_seq {X : Type} (f : nat -> X) (k a : nat) (d : X) :
  last (map f (seq a (S k))) d = f (a + k)%nat.
Proof.
  revert a. induction k as [|k IH]; intros a.
  - cbn. now rewrite Nat.add_0_r.
  - specialize (IH (S a)). cbn [seq map last] in IH |- *.
    now rewrite IH, Nat.add_succ_r.
Qed.

Variables (bedrooms bathrooms : Z) (area width height : @value num) (style : string).
Variables (bedroom_height share bath_height : @value num).

Let calls := floor_plan_calls bedrooms bathrooms area width height style
               bedroom_height share bath_height.
Let top := vsub (vadd start_y height) (vdiv height (flt 25 10)).
Let left := vadd start_x (vdiv width (int 2)).

Ltac kitchen_only p :=
  unfold calls; rewrite calls_as_blocks, !shapes_with_app, !shapes_with_flat_map;
  rewrite (@flat_map_nil _ _ (fun n => shapes_with p (bedroom _ _ _ n)))
    by (intros n; destruct n; reflexivity);
  rewrite (@flat_map_nil _ _ (fun n => shapes_with p (bathroom _ _ _ _ n)))
    by (intros n; reflexivity);
  reflexivity.

Lemma stove_shapes :
  shapes_with is_stove calls
  = [Rectangle (vadd left (int 3)) (vadd top (int 2)) (int 3) (int 3)].
Proof. kitchen_only is_stove. Qed.

Lemma burner_shapes :
  shapes_with is_burner calls
  = map (fun i : nat =>
           Circle (vadd (vadd left (flt 375 100))
                        (vmul (int (Z.of_nat i mod 2)) (flt 15 10)))
                  (vadd (vadd top (flt 275 100))
                        (vmul (int (Z.of_nat i / 2)) (flt 15 10)))
                  (flt 4 10))
        [0; 1; 2; 3]%nat.
Proof. kitchen_only is_burner. Qed.

Lemma counter_shapes :
  shapes_with is_counter calls
  = [Rectangle (vadd left (int 11)) (vadd top (int 2)) (int 4) (int 3)].
Proof. kitchen_only is_counter. Qed.

Lemma kitchen_sink_shapes :
  shapes_with is_kitchen_sink calls
  = [Rectangle (vadd left (int 12)) (vadd top (flt 25 10)) (int 2) (flt 15 10)].
Proof. kitchen_only is_kitchen_sink. Qed.

End MoreShapes.


(** ** Columns and the kitchen without rounding *)

Section IdealColumns.

Local Open Scope R_scope.

Variables (bedrooms bathrooms : Z) (area : R) (style : string).

Let ideal_scene := ideal_calls bedrooms bathrooms area style.

Ltac reals :=
  unfold private_height in *; unfold W, H in *; to_reals.

Ltac true_by_reals :=
  repeat (apply andb_true_intro; split);
  first [reflexivity|apply vle_true; reals; open_ends; split_ends; lra].

Lemma ideal_kitchen_nested : kitchen_nested ideal_scene = true.
Proof.
  unfold kitchen_nested, count, ideal_scene, ideal_calls.
  rewrite stove_shapes, burner_shapes, counter_shapes, kitchen_sink_shapes.
  cbn [map forallb List.length Nat.eqb andb].
  change (Z.of_nat 0 mod 2)%Z with 0%Z. change (Z.of_nat 1 mod 2)%Z with 1%Z.
  change (Z.of_nat 2 mod 2)%Z with 0%Z. change (Z.of_nat 3 mod 2)%Z with 1%Z.
  change (Z.of_nat 0 / 2)%Z with 0%Z. change (Z.of_nat 1 / 2)%Z with 0%Z.
  change (Z.of_nat 2 / 2)%Z with 1%Z. change (Z.of_nat 3 / 2)%Z with 1%Z.
  unfold within, bbox. true_by_reals.
Qed.

Lemma bedrooms_stacked :
  (1 <= bedrooms <= 20)%Z ->
  stacked (int 2)
    (map (bedroom_rect bedrooms (vdiv W (int 2)) (vdiv private_height (int bedrooms)))
         (range bedrooms)) = true.
Proof.
  intros [Hb Hb20]. apply IZR_le in Hb, Hb20.
  assert (Hh : 2 <= 125 / 3 / IZR bedrooms) by (apply div_lower; lra).
  apply stacked_map. intros n.
  unfold bedroom_rect. cbn [bedroom app hd snd]. unfold below, bbox, veq.
  assert (Hk : IZR (bedrooms - Z.of_nat (S n) - 1) = IZR (bedrooms - Z.of_nat n - 1) - 1).
  { rewrite <- minus_IZR. f_equal. lia. }
  repeat (apply andb_true_intro; split); apply vle_true; reals; open_ends;
    rewrite ?Hk; split_ends; lra.
Qed.

Lemma bathrooms_stacked (bath_y_start : @value R) :
  (bathrooms <= 19)%Z ->
  stacked (int 2)
    (map (bathroom_rect W (vdiv W (int 2)) bath_y_start
            (vdiv private_height (vadd (int bathrooms) (flt 15 10))))
         (range bathrooms)) = true.
Proof.
  intros Hb19. destruct (Z.le_gt_cases bathrooms 0) as [Hb0|Hb].
  { now rewrite range_nonpos. }
  assert (Hb1 : (1 <= bathrooms)%Z) by lia. apply IZR_le in Hb1, Hb19.
  assert (Hh : 2 <= 125 / 3 / (IZR bathrooms + 15 / 10)) by (apply div_lower; lra).
  apply stacked_map. intros n.
  unfold bathroom_rect. cbn [bathroom app hd snd]. unfold below, bbox, veq.
  assert (Hk : IZR (Z.of_nat (S n)) = IZR (Z.of_nat n) + 1).
  { rewrite <- plus_IZR. f_equal. lia. }
  destruct bath_y_start as [y0 np0].
  repeat (apply andb_true_intro; split); apply vle_true; reals; open_ends;
    rewrite ?Hk; split_ends; lra.
Qed.

Lemma ideal_columns_stacked :
  (1 <= bedrooms <= 20)%Z -> (bathrooms <= 19)%Z ->
  columns_stacked ideal_scene = true.
Proof.
  intros Hb Hba. pose proof (bedrooms_stacked Hb) as Hbeds.
  destruct Hb as [Hb Hb20].
  assert (Hx : 1 <= IZR bedrooms) by (apply IZR_le in Hb; exact Hb).
  assert (Hx20 : IZR bedrooms <= 20) by (apply IZR_le in Hb20; exact Hb20).
  assert (Hq : 125 / 3 / IZR bedrooms * IZR bedrooms = 125 / 3) by (field; lra).
  assert (Hh : 2 <= 125 / 3 / IZR bedrooms) by (apply div_lower; lra).
  unfold columns_stacked, ideal_scene, ideal_calls.
  rewrite outer_wall_shape, bedroom_zones, bathroom_zones.
  rewrite bathrooms_stacked by exact Hba.
  set (bed_rect := bedroom_rect bedrooms (vdiv W (int 2))
                     (vdiv private_height (int bedrooms))) in *.
  assert (Hlast : forall d, last (map bed_rect (range bedrooms)) d
                  = bed_rect (Z.to_nat bedrooms - 1)%nat).
  { intros d. unfold range.
    replace (Z.to_nat bedrooms) with (S (Z.to_nat bedrooms - 1)) at 1 by lia.
    now rewrite last_map_seq. }
  assert (Hcons : map bed_rect (range bedrooms)
                  = bed_rect 0%nat :: map bed_rect (seq 1 (Z.to_nat bedrooms - 1))).
  { now rewrite (range_pos Hb). }
  revert Hbeds Hlast. rewrite Hcons. intros Hbeds Hlast. cbv beta iota.
  rewrite Hlast, Hbeds. cbn [andb].
  unfold bed_rect, bedroom_rect. cbn [bedroom app hd snd bbox].
  replace (bedrooms - Z.of_nat (Z.to_nat bedrooms - 1) - 1)%Z with 0%Z by lia.
  replace (bedrooms - Z.of_nat 0 - 1)%Z with (bedrooms - 1)%Z by lia.
  unfold veq.
  repeat (apply andb_true_intro; split); apply vle_true; reals; open_ends;
    rewrite ?minus_IZR; split_ends; nra.
Qed.

End IdealColumns.

(** ** What the routine returns, whatever the arithmetic *)

Section MoreReturned.

Context {num : Type} {A : PyArith num}.

Variables (bedrooms bathrooms : Z) (area : num) (style : string).

(** No division of the footprint computation can raise: its divisors are
    numpy scalars or the constant 12. *)
Lemma footprint_returns :
  is_zero (of_int 12) = false -> returns (footprint (PyVal area false)) = true.
Proof.
  intros H12. unfold footprint, raw_dimensions.
  set (width := vmul (np_sqrt (vdiv (PyVal area false) (int 100))) (int 12)).
  assert (Hnp : is_np width = true) by reflexivity.
  destruct (vgt width (int 0)).
  - unfold checked_div at 1. rewrite Hnp, orb_true_r. cbn [negb andb bind].
    unfold py_max. destruct (vgt _ width); unfold checked_div;
      cbn [is_np vdiv lift int]; rewrite ?Hnp, ?orb_true_r; reflexivity.
  - cbn [bind]. unfold py_max. destruct (vgt (int 12) width); unfold checked_div.
    + cbn [is_np int num_of orb negb andb]. rewrite H12. reflexivity.
    + rewrite Hnp, orb_true_r. reflexivity.
Qed.

(** When the width is greater than 0 before rescaling, the height of the
    footprint is a numpy scalar. *)
Lemma footprint_numpy_height :
  vgt (raw_width (PyVal area false)) (int 0) = true ->
  exists width height,
    footprint (PyVal area false) = Ok (width, height) /\ is_np height = true.
Proof.
  intros Hw. unfold footprint, raw_dimensions. fold (raw_width (PyVal area false)).
  rewrite Hw.
  assert (Hnp : is_np (raw_width (PyVal area false)) = true) by reflexivity.
  unfold checked_div at 1. rewrite Hnp, orb_true_r. cbn [negb andb bind].
  unfold py_max. destruct (vgt _ (raw_width _)); unfold checked_div;
    cbn [is_np vdiv lift int]; rewrite ?Hnp, ?orb_true_r; cbn [negb andb bind orb];
    (eexists; eexists; split; [reflexivity|]); cbn [is_np vmul vdiv lift];
    rewrite ?Hnp, ?orb_true_r; reflexivity.
Qed.

Lemma draws_with_positive_width :
  vgt (raw_width (PyVal area false)) (int 0) = true ->
  counts_fit bedrooms bathrooms = true ->
  exists s,
    draw_detailed_floor_plan bedrooms bathrooms area style = Ok s
    /\ count is_living s = 1%nat /\ count is_kitchen s = 1%nat
    /\ count is_bedroom s = Z.to_nat bedrooms
    /\ count is_bathroom s = Z.to_nat bathrooms.
Proof.
  intros Hw Hfit. destruct (footprint_numpy_height Hw) as (w & h & Hf & Hnp).
  destruct (@returns_with_numpy_height _ _ bedrooms bathrooms area style w h Hf Hnp Hfit)
    as [s Hs].
  exists s. split; [exact Hs|].
  destruct (@returned_zone_counts _ _ bedrooms bathrooms area style s Hs)
    as (Hl & Hk & Hbed & Hbath & _).
  now auto.
Qed.

Lemma overflows_with_positive_width :
  vgt (raw_width (PyVal area false)) (int 0) = true ->
  counts_fit bedrooms bathrooms = false ->
  draw_detailed_floor_plan bedrooms bathrooms area style = Raise OverflowError.
Proof.
  intros Hw Hfit. destruct (footprint_numpy_height Hw) as (w & h & Hf & Hnp).
  eapply overflows_with_numpy_height; eassumption.
Qed.

Lemma desk_of_returned (s : @scene num) :
  draw_detailed_floor_plan bedrooms bathrooms area style = Ok s ->
  filter is_desk (roles s)
  = if (1 <=? bedrooms)%Z then [Fixture (Bedroom 0) Desk] else [].
Proof.
  intros Hs. apply draw_calls in Hs.
  destruct Hs as (w & h & bh & sh & bath & ->). apply desk_roles.
Qed.

Lemma furniture_of_returned (area' : num) (style' : string) (s s' : @scene num) :
  draw_detailed_floor_plan bedrooms bathrooms area style = Ok s ->
  draw_detailed_floor_plan bedrooms bathrooms area' style' = Ok s' ->
  furniture_sizes s = furniture_sizes s'.
Proof.
  intros Hs Hs'. apply draw_calls in Hs, Hs'.
  destruct Hs as (w & h & bh & sh & bath & ->).
  destruct Hs' as (w' & h' & bh' & sh' & bath' & ->).
  apply furniture_sizes_fixed.
Qed.

Lemma calls_but_title (width height bedroom_height share bath_height : @value num)
    (style' : string) :
  filter (fun p => negb (is_title (fst p)))
    (floor_plan_calls bedrooms bathrooms (PyVal area false) width height style
       bedroom_height share bath_height)
  = filter (fun p => negb (is_title (fst p)))
      (floor_plan_calls bedrooms bathrooms (PyVal area false) width height style'
         bedroom_height share bath_height).
Proof.
  rewrite !calls_as_blocks, !filter_app. reflexivity.
Qed.

(** The style decides neither whether the routine returns nor any call but
    the title. *)
Lemma style_of_returned (style' : string) :
  match draw_detailed_floor_plan bedrooms bathrooms area style,
        draw_detailed_floor_plan bedrooms bathrooms area style' with
  | Ok s, Ok s' =>
      filter (fun p => negb (is_title (fst p))) s
      = filter (fun p => negb (is_title (fst p))) s'
  | Raise e, Raise e' => e = e'
  | _, _ => False
  end.
Proof.
  unfold draw_detailed_floor_plan.
  destruct (footprint _) as [[w h]|e]; [|reflexivity]. cbn [bind]. unfold layout.
  destruct (operand bedrooms) as [d|e]; [|reflexivity]. cbn [bind].
  destruct (checked_div _ d) as [bh|e]; [|reflexivity]. cbn [bind].
  destruct (operand (bathrooms + 1)) as [d1|e]; [|reflexivity]. cbn [bind].
  destruct (checked_div _ d1) as [sh|e]; [|reflexivity]. cbn [bind].
  destruct (operand bathrooms) as [c|e]; [|reflexivity]. cbn [bind].
  destruct (checked_div _ (vadd _ _)) as [bath|e]; [|reflexivity]. cbn [bind].
  apply calls_but_title.
Qed.

End MoreReturned.

(** ** Area zero and the numbers of rooms *)

Section ZeroAreaRaises.

Local Open Scope R_scope.

Variables (bedrooms bathrooms : Z) (style : string).

Lemma checked_div_zero (a b : @value R) :
  is_np a = false -> is_np b = false -> num_of b = 0 ->
  checked_div a b = Raise ZeroDivisionError.
Proof.
  intros Ha Hb Hz. unfold checked_div. rewrite Ha, Hb. cbn [orb negb andb].
  cbn [is_zero real_arith]. destruct (Req_dec_T (num_of b) 0); [reflexivity|contradiction].
Qed.

Lemma bathrooms_and_a_half : IZR bathrooms + 15 / 10 <> 0.
Proof.
  intros Hz. assert (H2 : IZR (2 * bathrooms + 3) = 0).
  { rewrite plus_IZR, mult_IZR. lra. }
  apply eq_IZR_R0 in H2. lia.
Qed.

Lemma ideal_zero_area_raises :
  ideal bedrooms bathrooms 0 style = Raise ZeroDivisionError
  <-> bedrooms = 0%Z \/ bathrooms = (-1)%Z.
Proof.
  unfold ideal, draw_detailed_floor_plan. rewrite footprint_zero. cbn [bind].
  unfold layout. rewrite !operand_ideal. cbn [bind].
  destruct (Z.eq_dec bedrooms 0) as [Hb|Hb].
  { rewrite checked_div_zero; [|reflexivity|reflexivity|subst; reflexivity].
    cbn [bind]. split; [now left|reflexivity]. }
  rewrite checked_div_ideal by (to_reals; intros Hz; apply eq_IZR_R0 in Hz; contradiction).
  cbn [bind].
  destruct (Z.eq_dec bathrooms (-1)) as [Hba|Hba].
  { rewrite checked_div_zero; [|reflexivity|reflexivity|subst; reflexivity].
    cbn [bind]. split; [now right|reflexivity]. }
  rewrite checked_div_ideal
    by (to_reals; intros Hz; apply eq_IZR_R0 in Hz; lia).
  cbn [bind].
  rewrite checked_div_ideal by (to_reals; apply bathrooms_and_a_half).
  cbn [bind]. split; [discriminate|]. intros [Hz|Hz]; contradiction.
Qed.

End ZeroAreaRaises.

Lemma all_from_pairs (P : Z -> Z -> bool) (n m : nat) (z w k l : Z) :
  all_from n z (fun i => all_from m w (P i)) = true ->
  (z <= k < z + Z.of_nat n)%Z -> (w <= l < w + Z.of_nat m)%Z -> P k l = true.
Proof.
  intros Hall Hk Hl.
  apply (@all_from_spec (P k) m w); [|exact Hl].
  exact (@all_from_spec (fun i => all_from m w (P i)) n z k Hall Hk).
Qed.

Lemma raises_iff {X : Type} (m : result X) :
  raises m = true <-> m = Raise ZeroDivisionError.
Proof.
  destruct m as [x|[|]]; cbn [raises]; split; intros Hm; try discriminate Hm; reflexivity.
Qed.

Lemma zero_area_binary64_raises (bedrooms bathrooms : Z) (style : string) :
  (-8 <= bedrooms <= 8)%Z -> (-8 <= bathrooms <= 8)%Z ->
  (run bedrooms bathrooms 0%float style = Raise ZeroDivisionError
   <-> bedrooms = 0%Z \/ bathrooms = (-1)%Z).
Proof.
  intros Hb Hba.
  assert (Hok : zero_area_raises_ok style bedrooms bathrooms = true).
  { apply (@all_from_pairs (zero_area_raises_ok style) 17 17 (-8) (-8)); [|lia|lia].
    vm_compute. reflexivity. }
  unfold zero_area_raises_ok in Hok. apply eqb_prop in Hok.
  rewrite <- raises_iff, Hok, orb_true_iff, !Z.eqb_eq. reflexivity.
Qed.

(** ** Binary64 on every input of the user interface, continued *)

Lemma same_value_eq (a b : @value float) : same_value a b = true -> a = b.
Proof.
  destruct a as [x p], b as [y q]. unfold same_value. cbn [num_of is_np].
  rewrite andb_true_iff. intros [Hx Hp].
  apply FloatAxioms.Leibniz.eqb_spec in Hx. apply eqb_prop in Hp. now subst.
Qed.

Lemma among_in (l : list (@value float * @value float))
    (wh : @value float * @value float) :
  among l wh = true -> In wh l.
Proof.
  unfold among. rewrite existsb_exists. intros ([w h] & Hin & Heq).
  apply andb_true_iff in Heq. destruct Heq as [Hw Hh]. cbn [fst snd] in Hw, Hh.
  apply same_value_eq in Hw, Hh. destruct wh as [w' h']. cbn [fst snd] in Hw, Hh.
  now subst.
Qed.

Lemma footprint_on_ui_range (area : Z) :
  (500 <= area <= 50000)%Z ->
  exists width height,
    footprint (PyVal (float_of_Z area) false) = Ok (width, height)
    /\ In (width, height) ui_footprints.
Proof.
  intros Harea.
  assert (Hok : footprint_among_ui area = true).
  { apply (@all_from_spec footprint_among_ui (Z.to_nat 49501) 500); [|lia].
    vm_compute. reflexivity. }
  unfold footprint_among_ui in Hok.
  destruct (footprint _) as [[w h]|]; [|discriminate Hok].
  exists w, h. split; [reflexivity|]. now apply among_in.
Qed.

(** The scenes on the footprints of the user interface, for the numbers of
    bedrooms and bathrooms of its sliders (1..8 and 1..5, lines 1180-1181). *)
Lemma ui_scenes (area : float) (style : string) :
  forallb (fun wh : @value float * @value float =>
    forallb (fun bedrooms =>
      forallb (fun bathrooms =>
                 ui_scene_ok area style (fst wh) (snd wh) bedrooms bathrooms)
              [1; 2; 3; 4; 5]%Z)
      [1; 2; 3; 4; 5; 6; 7; 8]%Z)
    ui_footprints = true.
Proof. vm_compute. reflexivity. Qed.

Lemma forallb_three {X Y Z : Type} (f : X -> Y -> Z -> bool)
    (lx : list X) (ly : list Y) (lz : list Z) (x : X) (y : Y) (z : Z) :
  forallb (fun x => forallb (fun y => forallb (fun z => f x y z) lz) ly) lx = true ->
  In x lx -> In y ly -> In z lz -> f x y z = true.
Proof.
  intros Hall Hx Hy Hz.
  rewrite forallb_forall in Hall. specialize (Hall x Hx).
  rewrite forallb_forall in Hall. specialize (Hall y Hy).
  rewrite forallb_forall in Hall. exact (Hall z Hz).
Qed.

Lemma ui_scene (area : float) (style : string) (width height : @value float)
    (bedrooms bathrooms : Z) :
  In (width, height) ui_footprints ->
  In bedrooms [1; 2; 3; 4; 5; 6; 7; 8]%Z -> In bathrooms [1; 2; 3; 4; 5]%Z ->
  ui_scene_ok area style width height bedrooms bathrooms = true.
Proof.
  intros Hin Hb Hba.
  exact (@forallb_three _ _ _
           (fun wh b ba => ui_scene_ok area style (fst wh) (snd wh) b ba)
           _ _ _ (width, height) bedrooms bathrooms (ui_scenes area style) Hin Hb Hba).
Qed.

Lemma zones_binary64_on_ui (bedrooms bathrooms area : Z) (style : string) :
  (500 <= area <= 50000)%Z -> (1 <= bedrooms <= 8)%Z -> (1 <= bathrooms <= 5)%Z ->
  exists s,
    run bedrooms bathrooms (float_of_Z area) style = Ok s
    /\ zones_binary64_ok s = true
    /\ fixtures_contained (int 0) s = (bedrooms <=? 5)%Z
    /\ service_band_on_top s = true.
Proof.
  intros Harea Hb Hba.
  destruct (footprint_on_ui_range Harea) as (w & h & Hf & Hin).
  assert (Hbin : In bedrooms [1; 2; 3; 4; 5; 6; 7; 8]%Z) by (cbn [In]; lia).
  assert (Hbain : In bathrooms [1; 2; 3; 4; 5]%Z) by (cbn [In]; lia).
  pose proof (ui_scene (float_of_Z area) style Hin Hbin Hbain) as Hok.
  unfold ui_scene_ok in Hok. cbv zeta in Hok.
  apply andb_true_iff in Hok. destruct Hok as [Hok Hband].
  apply andb_true_iff in Hok. destruct Hok as [Hok Hfix].
  apply andb_true_iff in Hok. destruct Hok as [Hok Hzones].
  apply andb_true_iff in Hok. destruct Hok as [Hnp Hfit].
  apply eqb_prop in Hfix.
  eexists. split; [|split; [exact Hzones|split; [exact Hfix|exact Hband]]].
  unfold run, draw_detailed_floor_plan. rewrite Hf. cbn [bind].
  rewrite layout_np by assumption. reflexivity.
Qed.

Lemma zones_binary64_parts (s : @scene float) :
  zones_binary64_ok s = true ->
  zones_disjoint ulp_100 s = true /\ zones_inside_footprint (int 1) s = true
  /\ zones_proper s = true /\ kitchen_nested s = true.
Proof.
  unfold zones_binary64_ok. rewrite !andb_true_iff. tauto.
Qed.


(** ** The rooms in which the fixtures fit *)

Section FixturesOfRooms.

Context {num : Type} {A : PyArith num}.

Lemma fixtures_contained_in (c : @value num) (s : @scene num)
    (z : zone_kind) (f : fixture) (sh zr : @shape num) :
  fixtures_contained c s = true ->
  In (Fixture z f, sh) s -> In (Zone z, zr) s -> within c sh zr = true.
Proof.
  unfold fixtures_contained. rewrite forallb_forall. intros Hall Hf Hz.
  specialize (Hall _ Hf). cbn [fst snd] in Hall.
  rewrite forallb_forall in Hall. specialize (Hall _ Hz). cbn [fst snd] in Hall.
  now rewrite zone_kind_eqb_refl in Hall.
Qed.

Variables (bedrooms bathrooms : Z) (area width height : @value num) (style : string).
Variables (bedroom_height share bath_height : @value num).

Let calls := floor_plan_calls bedrooms bathrooms area width height style
               bedroom_height share bath_height.

Lemma first_bedroom_in_calls (p : @primitive num) :
  (1 <= bedrooms)%Z ->
  In p (bedroom bedrooms (vdiv width (int 2)) bedroom_height 0) -> In p calls.
Proof.
  intros Hb Hp. unfold calls. rewrite calls_as_blocks, !in_app_iff.
  right; right; right; left. apply in_flat_map. exists 0%nat.
  split; [apply in_range; lia|exact Hp].
Qed.

Lemma first_bathroom_in_calls (p : @primitive num) :
  (1 <= bathrooms)%Z ->
  In p (bathroom width (vdiv width (int 2))
          (vsub (vsub (vadd start_y height) (vdiv height (flt 25 10))) share)
          bath_height 0) ->
  In p calls.
Proof.
  intros Hb Hp. unfold calls. rewrite calls_as_blocks, !in_app_iff.
  right; right; right; right; left. apply in_flat_map. exists 0%nat.
  split; [apply in_range; lia|exact Hp].
Qed.

End FixturesOfRooms.

Section IdealFixtures.

Local Open Scope R_scope.

Variables (bedrooms bathrooms : Z) (area : R) (style : string).

Let ideal_scene := ideal_calls bedrooms bathrooms area style.

(** The bed of the first bedroom leaves its zone from six bedrooms on. *)
Lemma bed_needs_room :
  (1 <= bedrooms)%Z -> fixtures_contained (int 0) ideal_scene = true ->
  (bedrooms <= 5)%Z.
Proof.
  intros Hb Hall. assert (Hx : 1 <= IZR bedrooms) by (apply IZR_le in Hb; exact Hb).
  assert (Hq : 125 / 3 / IZR bedrooms * IZR bedrooms = 125 / 3) by (field; lra).
  unfold ideal_scene, ideal_calls in Hall.
  eapply fixtures_contained_in with (z := Bedroom 0) (f := Bed) in Hall.
  2: { apply first_bedroom_in_calls; [exact Hb|]. cbn [bedroom app In]. right; left.
       reflexivity. }
  2: { apply first_bedroom_in_calls; [exact Hb|]. cbn [bedroom app In]. left.
       reflexivity. }
  unfold within, bbox in Hall. rewrite !andb_true_iff, !le_ideal in Hall.
  destruct Hall as [_ Htop].
  unfold private_height in Htop. unfold W, H in Htop. to_reals.
  rewrite !num_of_upper in Htop. to_reals.
  assert (Hlt : IZR bedrooms < IZR 6) by (split_ends; nra).
  apply lt_IZR in Hlt. lia.
Qed.

(** The bathtub of the first bathroom leaves its zone from seven bathrooms
    on. *)
Lemma bathtub_needs_room :
  (1 <= bathrooms)%Z -> fixtures_contained (int 0) ideal_scene = true ->
  (bathrooms <= 6)%Z.
Proof.
  intros Hb Hall. assert (Hx : 1 <= IZR bathrooms) by (apply IZR_le in Hb; exact Hb).
  assert (Hq : 125 / 3 / (IZR bathrooms + 15 / 10) * (IZR bathrooms + 15 / 10) = 125 / 3)
    by (field; lra).
  unfold ideal_scene, ideal_calls in Hall.
  eapply fixtures_contained_in with (z := Bathroom 0) (f := Bathtub) in Hall.
  2: { apply first_bathroom_in_calls; [exact Hb|]. cbn [bathroom In]. right; left.
       reflexivity. }
  2: { apply first_bathroom_in_calls; [exact Hb|]. cbn [bathroom In]. left.
       reflexivity. }
  unfold within, bbox in Hall. rewrite !andb_true_iff, !le_ideal in Hall.
  destruct Hall as [_ Htop].
  unfold private_height in Htop. unfold W, H in Htop. to_reals.
  rewrite !num_of_upper in Htop. to_reals.
  assert (Hlt : IZR bathrooms < IZR 7) by (split_ends; nra).
  apply lt_IZR in Hlt. lia.
Qed.

Lemma fixtures_fit_in_large_rooms :
  (bedrooms <= 5)%Z -> (bathrooms <= 6)%Z ->
  fixtures_contained (int 0) ideal_scene = true.
Proof.
  intros Hb Hba. unfold ideal_scene, ideal_calls.
  apply fixtures_contained_by_room.
  intros z f sh zr Hplan Hf Hz.
  destruct z as [| |n|n]; cbn [room] in Hf, Hz; cbn [zone_in_plan] in Hplan.
  - eapply living_room_contained; eassumption.
  - eapply kitchen_contained; eassumption.
  - apply in_range in Hplan.
    eapply (@bedroom_contained bedrooms n f sh zr); [lia|eassumption|eassumption].
  - apply in_range in Hplan.
    eapply (@bathroom_contained bathrooms n f sh zr); [lia|eassumption|eassumption].
Qed.

Lemma ideal_fixtures_contained_iff :
  fixtures_contained (int 0) ideal_scene = true
  <-> (bedrooms <= 5)%Z /\ (bathrooms <= 6)%Z.
Proof.
  split.
  - intros Hall. split.
    + destruct (Z.le_gt_cases 1 bedrooms) as [Hb|Hb]; [|lia]. now apply bed_needs_room.
    + destruct (Z.le_gt_cases 1 bathrooms) as [Hb|Hb]; [|lia].
      now apply bathtub_needs_room.
  - intros [Hb Hba]. now apply fixtures_fit_in_large_rooms.
Qed.

End IdealFixtures.

(** ** Invalid inputs, huge counts and area zero *)

Lemma forallb_two {X Y : Type} (f : X -> Y -> bool) (lx : list X) (ly : list Y)
    (x : X) (y : Y) :
  forallb (fun x => forallb (fun y => f x y) ly) lx = true ->
  In x lx -> In y ly -> f x y = true.
Proof.
  intros Hall Hx Hy.
  rewrite forallb_forall in Hall. specialize (Hall x Hx).
  rewrite forallb_forall in Hall. exact (Hall y Hy).
Qed.

Lemma in_ui_counts (bedrooms bathrooms : Z) :
  (1 <= bedrooms <= 8)%Z -> (1 <= bathrooms <= 5)%Z ->
  In bedrooms [1; 2; 3; 4; 5; 6; 7; 8]%Z /\ In bathrooms [1; 2; 3; 4; 5]%Z.
Proof. intros Hb Hba. cbn [In]. lia. Qed.

(** The ints that have a float value are those between the two bounds
    [-(2^1024 - 2^970)] and [2^1024 - 2^970], which round to an infinity. *)
Lemma fits_boundary :
  fits (num := float) (2 ^ 1024 - 2 ^ 970 - 1) = true
  /\ fits (num := float) (2 ^ 1024 - 2 ^ 970) = false
  /\ fits (num := float) (- (2 ^ 1024 - 2 ^ 970 - 1)) = true
  /\ fits (num := float) (- (2 ^ 1024 - 2 ^ 970)) = false.
Proof. repeat split; vm_compute; reflexivity. Qed.

Lemma invalid_inputs_binary64 (style : string) :
  forallb (fun bedrooms =>
    forallb (fun bathrooms => invalid_inputs_ok style bedrooms bathrooms)
            [1; 2; 3; 4; 5]%Z)
    [1; 2; 3; 4; 5; 6; 7; 8]%Z = true.
Proof. vm_compute. reflexivity. Qed.

Lemma counts_ok_on_ui :
  forallb (fun bedrooms => forallb (fun bathrooms => counts_ok bedrooms bathrooms)
                                   [1; 2; 3; 4; 5]%Z)
          [1; 2; 3; 4; 5; 6; 7; 8]%Z = true.
Proof. vm_compute. reflexivity. Qed.

Lemma footprint_zero_binary64 :
  raw_dimensions (PyVal 0%float false) = Ok (PyVal 0%float true, int 12)
  /\ footprint (PyVal 0%float false) = Ok (PyVal 0%float true, PyVal 100%float false).
Proof. split; vm_compute; reflexivity. Qed.

(** With area 0 the height of the footprint is the builtin float 100 and
    the three quotients are Python divisions of 100 - 100 / 2.5. *)
Lemma run_zero_area (bedrooms bathrooms : Z) (style : string) :
  counts_ok bedrooms bathrooms = true ->
  run bedrooms bathrooms 0%float style
  = Ok (floor_plan_calls bedrooms bathrooms (PyVal 0%float false)
          (PyVal 0%float true) (PyVal 100%float false) style
          (vdiv (vsub (PyVal 100%float false) (vdiv (PyVal 100%float false) (flt 25 10)))
                (int bedrooms))
          (vdiv (vsub (PyVal 100%float false) (vdiv (PyVal 100%float false) (flt 25 10)))
                (int (bathrooms + 1)))
          (vdiv (vsub (PyVal 100%float false) (vdiv (PyVal 100%float false) (flt 25 10)))
                (vadd (int bathrooms) (flt 15 10)))).
Proof.
  unfold counts_ok. rewrite andb_true_iff. intros [Hfit Hnz].
  unfold run, draw_detailed_floor_plan.
  rewrite (proj2 footprint_zero_binary64). cbn [bind].
  now apply layout_nonzero.
Qed.

Lemma ideal_zero_area (bedrooms bathrooms : Z) (style : string) :
  (1 <= bedrooms)%Z -> (1 <= bathrooms)%Z ->
  ideal bedrooms bathrooms 0 style
  = Ok (floor_plan_calls bedrooms bathrooms (PyVal 0%R false)
          (PyVal 0%R true) (PyVal 100%R false) style
          (vdiv (vsub (PyVal 100%R false) (vdiv (PyVal 100%R false) (flt 25 10)))
                (int bedrooms))
          (vdiv (vsub (PyVal 100%R false) (vdiv (PyVal 100%R false) (flt 25 10)))
                (int (bathrooms + 1)))
          (vdiv (vsub (PyVal 100%R false) (vdiv (PyVal 100%R false) (flt 25 10)))
                (vadd (int bathrooms) (flt 15 10)))).
Proof.
  intros Hb Hba. apply IZR_le in Hb, Hba.
  unfold ideal, draw_detailed_floor_plan. rewrite footprint_zero. cbn [bind].
  apply layout_nonzero; [apply counts_fit_ideal|].
  unfold divisors_nonzero. rewrite !andb_true_iff, !negb_true_iff.
  cbn [is_zero real_arith]. to_reals.
  repeat split; match goal with |- context [Req_dec_T ?a ?b] =>
                  destruct (Req_dec_T a b) as [Hz|_]; [|reflexivity] end;
    rewrite ?plus_IZR in Hz; lra.
Qed.

(** * The claims of the specification *)

Local Open Scope string_scope.

(** ** C1: fixtures and their zones *)




(** ** C2: invalid inputs *)

(** C2, as stated, fails: for area 0 the routine returns a scene. *)
Lemma zero_area_returns_a_scene :
  returns (run 3 2 0%float "Modern") = true.
Proof. vm_compute; reflexivity. Qed.

(** C2, amended: the routine rejects none of the three inputs.  In binary64,
    with 1..8 bedrooms and 1..5 bathrooms, it returns a scene for area 0 and
    for area -5, the latter with an outline of NaN sides; with bedroomCount 0
    and an integer area from 500 to 50000 it returns a scene without any
    Bedroom zone.  With bedroomCount 0 and area 0 together it raises, but
    ZeroDivisionError, and the footprint is computed before. *)
Theorem invalid_inputs_are_not_rejected
    (bedrooms bathrooms n : Z) (style : string) :
  (1 <= bedrooms <= 8)%Z -> (1 <= bathrooms <= 5)%Z -> (500 <= n <= 50000)%Z ->
  returns (run bedrooms bathrooms 0%float style) = true
  /\ holds outline_is_nan (run bedrooms bathrooms (-5)%float style) = true
  /\ holds (fun s => Nat.eqb (count is_bedroom s) 0)
           (run 0 bathrooms (float_of_Z n) style) = true
  /\ returns (footprint (PyVal 0%float false)) = true
  /\ run 0 bathrooms 0%float style = Raise ZeroDivisionError.
Proof.
  intros Hb Hba Hn. destruct (in_ui_counts Hb Hba) as [Hbin Hbain].
  pose proof (forallb_two (invalid_inputs_ok style) _ _ _ _
                (invalid_inputs_binary64 style) Hbin Hbain) as Hok.
  unfold invalid_inputs_ok in Hok. rewrite !andb_true_iff in Hok.
  destruct Hok as [[[Hzero Hneg] Hfit] Hraise].
  split; [exact Hzero|]. split; [exact Hneg|]. split; [|split].
  - destruct (run_returns_on_ui_range 0 bathrooms style Hn Hfit) as [s Hs].
    rewrite Hs. cbn [holds].
    destruct (returned_zone_counts _ _ _ _ Hs) as (_ & _ & Hbed & _).
    now rewrite Hbed.
  - rewrite (proj2 footprint_zero_binary64). reflexivity.
  - now apply raises_iff.
Qed.

Lemma invalid_inputs_are_not_rejected_witness :
  (1 <= 3 <= 8)%Z /\ (1 <= 2 <= 5)%Z /\ (500 <= 2000 <= 50000)%Z
  /\ returns (run 3 2 0%float "Modern") = true
  /\ holds outline_is_nan (run 3 2 (-5)%float "Modern") = true
  /\ holds (fun s => Nat.eqb (count is_bedroom s) 0)
           (run 0 2 (float_of_Z 2000) "Modern") = true
  /\ returns (footprint (PyVal 0%float false)) = true
  /\ run 0 2 0%float "Modern" = Raise ZeroDivisionError.
Proof.
  split; [lia|]. split; [lia|]. split; [lia|].
  apply invalid_inputs_are_not_rejected; lia.
Defined.

(** ** C3: zone counts *)




(** ** C4: the footprint and the canvas budget *)

(** C4, as stated, fails in binary64: for area 1500 the larger side of the
    footprint is strictly below 100 (it is 99.99999999999999), because
    [width * (100 / width)] is rounded twice. *)
Lemma footprint_below_budget_at_1500 :
  footprint_fills_budget (PyVal 1500%float false) = false
  /\ match footprint (PyVal 1500%float false) with
     | Ok (width, height) =>
         vgt width (int 0) && vgt height (int 0)
         && vgt (int 100) (py_max width height)
     | Raise _ => false
     end = true.
Proof. split; vm_compute; reflexivity. Qed.

(** C4, amended: computed without rounding, for every area > 0 the footprint
    solver returns width > 0, height > 0 and a larger side equal to the
    canvas budget of 100; in binary64, for every integer area from 500 to
    50000, it returns width > 0, height > 0 and a larger side within one unit
    in the last place (2^-46) of 100. *)
Theorem footprint_fills_budget_up_to_rounding (area : R) (n : Z) :
  (0 < area)%R -> (500 <= n <= 50000)%Z ->
  footprint_fills_budget (PyVal area false) = true
  /\ footprint_near_budget ulp_100 (PyVal (float_of_Z n) false) = true.
Proof.
  intros Ha Hn. split.
  - unfold footprint_fills_budget.
    rewrite footprint_ideal by assumption.
    assert (Hmax : py_max W H = W).
    { unfold py_max. rewrite (proj2 (gt_ideal_false H W)); [reflexivity|].
      unfold W, H. to_reals. lra. }
    rewrite Hmax.
    rewrite !vgt_true, veq_true; [reflexivity|..]; unfold W, H; to_reals; lra.
  - exact (proj1 (@footprint_binary64_parts n (footprint_binary64_on_ui_range Hn))).
Qed.

Lemma footprint_fills_budget_up_to_rounding_witness :
  (0 < 1500)%R /\ (500 <= 1500 <= 50000)%Z
  /\ footprint_fills_budget (PyVal 1500%R false) = true
  /\ footprint_near_budget ulp_100 (PyVal (float_of_Z 1500) false) = true.
Proof.
  split; [lra|]. split; [lia|].
  apply footprint_fills_budget_up_to_rounding; [lra|lia].
Defined.

(** ** C5: the two bands *)




(** ** C6: order of the primitives *)




(** ** C7: the main door *)




(** ** C8: the windows *)

(** C8 fails of the code: in the scene for 2000 sq ft, 3 bedrooms and 2
    bathrooms no window lies on the front (bottom) edge.  Six positions are
    listed, two of them on the front wall, but only the first
    [min(4, 6) = 4] are drawn. *)
Lemma no_window_on_the_front_edge :
  returns (run 3 2 2000%float "Modern") = true
  /\ holds windows_on_three_edges (run 3 2 2000%float "Modern") = false
  /\ holds (fun s => Nat.eqb (windows_on on_front_edge s) 0)
           (run 3 2 2000%float "Modern") = true.
Proof. repeat split; vm_compute; reflexivity. Qed.

(** C8, what the code does: for every valid Specification whose counts have
    a float value, computed without rounding, the routine lists six window
    positions, the last two of which stand for windows on the footprint's
    front edge, and draws the windows of the first four only: two on the
    left edge, two on the right edge and none on the front edge.  The
    windows drawn do not depend on the numbers of bedrooms and bathrooms. *)
Theorem front_windows_are_listed_but_not_drawn
    (bedrooms bathrooms bedrooms' bathrooms' : Z) (area : R) (style : string) :
  (0 < area)%R -> (1 <= bedrooms)%Z -> (1 <= bathrooms)%Z ->
  (1 <= bedrooms')%Z -> (1 <= bathrooms')%Z ->
  counts_fit (num := float) bedrooms bathrooms = true ->
  counts_fit (num := float) bedrooms' bathrooms' = true ->
  exists s s',
    ideal bedrooms bathrooms area style = Ok s
    /\ ideal bedrooms' bathrooms' area style = Ok s'
    /\ shapes_with is_window s = shapes_with is_window s'
    /\ List.length (listed_windows W) = 6%nat
    /\ List.length (filter (on_front_edge (Rectangle start_x start_y W H))
                      (listed_windows W)) = 2%nat
    /\ shapes_with is_window s = firstn 4 (listed_windows W)
    /\ count is_window s = 4%nat
    /\ windows_on on_left_edge s = 2%nat
    /\ windows_on on_right_edge s = 2%nat
    /\ windows_on on_front_edge s = 0%nat.
Proof.
  intros Ha Hb Hba Hb' Hba' _ _.
  exists (ideal_calls bedrooms bathrooms area style),
         (ideal_calls bedrooms' bathrooms' area style).
  split; [now apply ideal_returns|]. split; [now apply ideal_returns|].
  destruct (ideal_windows bedrooms bathrooms area style) as (Hl & Hr & Hf & Hc).
  destruct (ideal_listed_windows bedrooms bathrooms area style) as (Hn & Hfront & Hdrawn).
  split; [|now auto 10].
  unfold ideal_calls. now rewrite !window_shapes.
Qed.

Lemma front_windows_are_listed_but_not_drawn_witness :
  (0 < 2000)%R /\ (1 <= 3)%Z /\ (1 <= 2)%Z /\ (1 <= 5)%Z /\ (1 <= 1)%Z
  /\ counts_fit (num := float) 3 2 = true /\ counts_fit (num := float) 5 1 = true
  /\ exists s s',
       ideal 3 2 2000 "Modern" = Ok s
       /\ ideal 5 1 2000 "Modern" = Ok s'
       /\ shapes_with is_window s = shapes_with is_window s'
       /\ List.length (listed_windows W) = 6%nat
       /\ List.length (filter (on_front_edge (Rectangle start_x start_y W H))
                         (listed_windows W)) = 2%nat
       /\ shapes_with is_window s = firstn 4 (listed_windows W)
       /\ count is_window s = 4%nat
       /\ windows_on on_left_edge s = 2%nat
       /\ windows_on on_right_edge s = 2%nat
       /\ windows_on on_front_edge s = 0%nat.
Proof.
  split; [lra|]. repeat (split; [lia|]).
  split; [vm_compute; reflexivity|]. split; [vm_compute; reflexivity|].
  apply front_windows_are_listed_but_not_drawn;
    [lra|lia|lia|lia|lia|vm_compute; reflexivity|vm_compute; reflexivity].
Defined.

(** ** C9: scale invariance *)

(** C9, as stated, fails in binary64: the areas 2000 and 1500 give different
    aspect ratios, and for 1500 the larger side is not 100. *)
Lemma aspect_ratio_differs_between_2000_and_1500 :
  same_aspect_ratio (PyVal 2000%float false) (PyVal 1500%float false) = false
  /\ match footprint (PyVal 2000%float false), footprint (PyVal 1500%float false) with
     | Ok (w1, h1), Ok (w2, h2) => veq (vdiv w1 h1) (vdiv w2 h2)
     | _, _ => true
     end = false.
Proof. split; vm_compute; reflexivity. Qed.

(** C9, amended: computed without rounding, any two areas > 0 give the same
    aspect ratio width / height, and the larger side of the footprint is 100
    for both; in binary64, for any two integer areas from 500 to 50000, both
    aspect ratios are within 2^-49 of 1.44 and both larger sides within one
    unit in the last place of 100. *)
Theorem aspect_ratio_is_scale_invariant_up_to_rounding
    (area1 area2 : R) (n1 n2 : Z) :
  (0 < area1)%R -> (0 < area2)%R ->
  (500 <= n1 <= 50000)%Z -> (500 <= n2 <= 50000)%Z ->
  same_aspect_ratio (PyVal area1 false) (PyVal area2 false) = true
  /\ footprint_binary64_ok n1 = true /\ footprint_binary64_ok n2 = true.
Proof.
  intros H1 H2 Hn1 Hn2. split; [|split; now apply footprint_binary64_on_ui_range].
  unfold same_aspect_ratio.
  rewrite !footprint_ideal by assumption.
  assert (Hmax : py_max W H = W).
  { unfold py_max. rewrite (proj2 (gt_ideal_false H W)); [reflexivity|].
    unfold W, H. to_reals. lra. }
  rewrite Hmax, !veq_true; [reflexivity|..]; unfold W; to_reals; lra.
Qed.

Lemma aspect_ratio_is_scale_invariant_up_to_rounding_witness :
  (0 < 2000)%R /\ (0 < 1500)%R
  /\ (500 <= 2000 <= 50000)%Z /\ (500 <= 1500 <= 50000)%Z
  /\ same_aspect_ratio (PyVal 2000%R false) (PyVal 1500%R false) = true
  /\ footprint_binary64_ok 2000 = true /\ footprint_binary64_ok 1500 = true.
Proof.
  split; [lra|]. split; [lra|]. split; [lia|]. split; [lia|].
  apply aspect_ratio_is_scale_invariant_up_to_rounding; [lra|lra|lia|lia].
Defined.

(** ** C10: area zero *)

(** C10: the footprint computation is total for area 0.  The width is 0, the
    guard [width > 0] fails and the height is the constant 12, the rescale
    divides 100 by [max(0, 12) = 12], and the footprint is 0 wide and 100
    high, the height a builtin float.  The routine then goes on to return
    the scene of its calls on that footprint, the three quotients being
    those of [100 - 100 / 2.5] by [bedrooms], [bathrooms + 1] and
    [bathrooms + 1.5]: in binary64 for 1..8 bedrooms and 1..5 bathrooms, and
    without rounding for all valid counts that have a float value. *)
Theorem zero_area_is_total
    (bedrooms bathrooms bedrooms' bathrooms' : Z) (style : string) :
  (1 <= bedrooms <= 8)%Z -> (1 <= bathrooms <= 5)%Z ->
  (1 <= bedrooms')%Z -> (1 <= bathrooms')%Z ->
  counts_fit (num := float) bedrooms' bathrooms' = true ->
  raw_dimensions (PyVal 0%float false) = Ok (PyVal 0%float true, int 12)
  /\ footprint (PyVal 0%float false) = Ok (PyVal 0%float true, PyVal 100%float false)
  /\ run bedrooms bathrooms 0%float style
     = Ok (floor_plan_calls bedrooms bathrooms (PyVal 0%float false)
             (PyVal 0%float true) (PyVal 100%float false) style
             (vdiv (vsub (PyVal 100%float false)
                         (vdiv (PyVal 100%float false) (flt 25 10)))
                   (int bedrooms))
             (vdiv (vsub (PyVal 100%float false)
                         (vdiv (PyVal 100%float false) (flt 25 10)))
                   (int (bathrooms + 1)))
             (vdiv (vsub (PyVal 100%float false)
                         (vdiv (PyVal 100%float false) (flt 25 10)))
                   (vadd (int bathrooms) (flt 15 10))))
  /\ raw_dimensions (PyVal 0%R false) = Ok (PyVal 0%R true, int 12)
  /\ footprint (PyVal 0%R false) = Ok (PyVal 0%R true, PyVal 100%R false)
  /\ ideal bedrooms' bathrooms' 0 style
     = Ok (floor_plan_calls bedrooms' bathrooms' (PyVal 0%R false)
             (PyVal 0%R true) (PyVal 100%R false) style
             (vdiv (vsub (PyVal 100%R false) (vdiv (PyVal 100%R false) (flt 25 10)))
                   (int bedrooms'))
             (vdiv (vsub (PyVal 100%R false) (vdiv (PyVal 100%R false) (flt 25 10)))
                   (int (bathrooms' + 1)))
             (vdiv (vsub (PyVal 100%R false) (vdiv (PyVal 100%R false) (flt 25 10)))
                   (vadd (int bathrooms') (flt 15 10)))).
Proof.
  intros Hb Hba Hb' Hba' _. destruct (in_ui_counts Hb Hba) as [Hbin Hbain].
  split; [exact (proj1 footprint_zero_binary64)|].
  split; [exact (proj2 footprint_zero_binary64)|]. split.
  - apply run_zero_area.
    exact (forallb_two counts_ok _ _ _ _ counts_ok_on_ui Hbin Hbain).
  - split; [exact raw_dimensions_zero|]. split; [exact footprint_zero|].
    now apply ideal_zero_area.
Qed.

Lemma zero_area_is_total_witness :
  (1 <= 3 <= 8)%Z /\ (1 <= 2 <= 5)%Z /\ (1 <= 30)%Z /\ (1 <= 20)%Z
  /\ counts_fit (num := float) 30 20 = true
  /\ run 3 2 0%float "Modern"
     = Ok (floor_plan_calls 3 2 (PyVal 0%float false)
             (PyVal 0%float true) (PyVal 100%float false) "Modern"
             (vdiv (vsub (PyVal 100%float false)
                         (vdiv (PyVal 100%float false) (flt 25 10)))
                   (int 3))
             (vdiv (vsub (PyVal 100%float false)
                         (vdiv (PyVal 100%float false) (flt 25 10)))
                   (int (2 + 1)))
             (vdiv (vsub (PyVal 100%float false)
                         (vdiv (PyVal 100%float false) (flt 25 10)))
                   (vadd (int 2) (flt 15 10)))).
Proof.
  split; [lia|]. split; [lia|]. split; [lia|]. split; [lia|].
  split; [vm_compute; reflexivity|].
  destruct (@zero_area_is_total 3 2 30 20 "Modern") as (_ & _ & Hrun & _);
    [lia|lia|lia|lia|vm_compute; reflexivity|].
  exact Hrun.
Defined.

(** * Further properties of the routine *)

Local Open Scope string_scope.
Local Open Scope list_scope.

(** X1: in every scene the routine returns, in any arithmetic, there is a
    desk exactly when there is at least one bedroom, and it is the desk of
    the first bedroom: the other bedrooms get a bed and a wardrobe only. *)
Theorem desk_only_in_the_first_bedroom {num : Type} {A : PyArith num}
    (bedrooms bathrooms : Z) (area : num) (style : string) (s : @scene num) :
  draw_detailed_floor_plan bedrooms bathrooms area style = Ok s ->
  filter is_desk (roles s)
  = if (1 <=? bedrooms)%Z then [Fixture (Bedroom 0) Desk] else [].
Proof. apply desk_of_returned. Qed.

Lemma desk_only_in_the_first_bedroom_witness :
  exists s,
    run 3 2 2000%float "Modern" = Ok s
    /\ filter is_desk (roles s) = [Fixture (Bedroom 0) Desk].
Proof.
  eexists. split; [vm_compute; reflexivity|].
  apply (@desk_only_in_the_first_bedroom float float_arith 3 2 2000%float "Modern").
  vm_compute; reflexivity.
Defined.

(** X2: whenever the width before rescaling, [sqrt(area / 100) * 12], is
    greater than 0, the numbers of bedrooms and bathrooms are not checked
    and a count of zero, or a negative one, raises nothing: every divisor is
    or divides a numpy scalar, and [range] of a count that is not positive
    draws no room.  If the three ints that the routine converts (bedrooms,
    bathrooms + 1 and bathrooms) have a float value, it returns a scene with
    one Living zone, one Kitchen zone, [max(0, bedrooms)] Bedroom zones and
    [max(0, bathrooms)] Bathroom zones; if one of them has none, it raises
    OverflowError.  In any arithmetic. *)
Theorem any_room_counts_are_drawn {num : Type} {A : PyArith num}
    (bedrooms bathrooms : Z) (area : num) (style : string) :
  vgt (raw_width (PyVal area false)) (int 0) = true ->
  (counts_fit bedrooms bathrooms = true ->
   exists s,
     draw_detailed_floor_plan bedrooms bathrooms area style = Ok s
     /\ count is_living s = 1%nat /\ count is_kitchen s = 1%nat
     /\ count is_bedroom s = Z.to_nat bedrooms
     /\ count is_bathroom s = Z.to_nat bathrooms)
  /\ (counts_fit bedrooms bathrooms = false ->
      draw_detailed_floor_plan bedrooms bathrooms area style = Raise OverflowError).
Proof.
  intros Hw. split; intros Hfit.
  - now apply draws_with_positive_width.
  - now apply overflows_with_positive_width.
Qed.

Lemma any_room_counts_are_drawn_witness :
  vgt (raw_width (PyVal 2000%float false)) (int 0) = true
  /\ counts_fit (num := float) 0 (-3) = true
  /\ counts_fit (num := float) (- 10 ^ 400) 2 = false
  /\ (exists s,
        draw_detailed_floor_plan 0 (-3) 2000%float "Modern" = Ok s
        /\ count is_living s = 1%nat /\ count is_kitchen s = 1%nat
        /\ count is_bedroom s = Z.to_nat 0
        /\ count is_bathroom s = Z.to_nat (-3))
  /\ draw_detailed_floor_plan (- 10 ^ 400) 2 2000%float "Modern" = Raise OverflowError.
Proof.
  split; [vm_compute; reflexivity|]. split; [vm_compute; reflexivity|].
  split; [vm_compute; reflexivity|]. split.
  - apply (@any_room_counts_are_drawn float float_arith 0 (-3) 2000%float "Modern");
      vm_compute; reflexivity.
  - apply (@any_room_counts_are_drawn float float_arith (- 10 ^ 400) 2 2000%float
             "Modern"); vm_compute; reflexivity.
Defined.

(** X3: with area 0 the height of the footprint is a builtin float, so
    that the quotients by [bedrooms] (line 371) and by [bathrooms + 1]
    (line 406) are Python divisions, while [bathrooms + 1.5] is never 0.
    For counts that have a float value the routine then raises
    ZeroDivisionError exactly when [bedrooms] is 0 or [bathrooms] is -1:
    computed without rounding for all such counts, and in binary64 for the
    counts from -8 to 8.  A count without a float value raises OverflowError
    before: 10^400 bedrooms do, although [bathrooms] is -1. *)
Theorem zero_area_raises_exactly_without_rooms
    (bedrooms bathrooms : Z) (style : string) :
  (counts_fit (num := float) bedrooms bathrooms = true ->
   (ideal bedrooms bathrooms 0 style = Raise ZeroDivisionError
    <-> bedrooms = 0%Z \/ bathrooms = (-1)%Z))
  /\ ((-8 <= bedrooms <= 8)%Z -> (-8 <= bathrooms <= 8)%Z ->
      (run bedrooms bathrooms 0%float style = Raise ZeroDivisionError
       <-> bedrooms = 0%Z \/ bathrooms = (-1)%Z))
  /\ run (10 ^ 400) (-1) 0%float "Modern" = Raise OverflowError.
Proof.
  split; [intros _; apply ideal_zero_area_raises|].
  split; [apply zero_area_binary64_raises|].
  vm_compute. reflexivity.
Qed.

Lemma zero_area_raises_exactly_without_rooms_witness :
  counts_fit (num := float) 3 (-1) = true
  /\ (-8 <= 3 <= 8)%Z /\ (-8 <= -1 <= 8)%Z
  /\ (ideal 3 (-1) 0 "Modern" = Raise ZeroDivisionError
      <-> 3%Z = 0%Z \/ (-1)%Z = (-1)%Z)
  /\ (run 3 (-1) 0%float "Modern" = Raise ZeroDivisionError
      <-> 3%Z = 0%Z \/ (-1)%Z = (-1)%Z).
Proof.
  split; [vm_compute; reflexivity|]. split; [lia|]. split; [lia|].
  destruct (zero_area_raises_exactly_without_rooms 3 (-1) "Modern") as (Hi & Hr & _).
  split; [apply Hi; vm_compute; reflexivity|]. apply Hr; lia.
Defined.

(** X4: the footprint computation raises for no binary64 area, be it
    negative, zero, infinite or NaN: it divides by numpy scalars and by the
    constant 12 only. *)
Theorem footprint_never_raises (area : float) :
  returns (footprint (PyVal area false)) = true.
Proof. apply footprint_returns. vm_compute. reflexivity. Qed.

(** X5: every zone rectangle, as it is drawn, lies in the outline shrunk by
    one unit on every side: computed without rounding for every area > 0
    with at most 20 bedrooms and at most 19 bathrooms (none included), and
    in binary64 for every integer area from 500 to 50000 with 1..8 bedrooms
    and 1..5 bathrooms.  With 21 bedrooms on 2000 sq ft it fails: the
    rectangles have a negative height there and extend below their anchor,
    and the last bedroom comes closer than one unit to the bottom edge. *)
Theorem zones_keep_one_unit_from_the_outline
    (bedrooms bathrooms : Z) (area : R) (bedrooms' bathrooms' n : Z) (style : string) :
  (0 < area)%R -> (0 <= bedrooms <= 20)%Z -> (0 <= bathrooms <= 19)%Z ->
  (500 <= n <= 50000)%Z -> (1 <= bedrooms' <= 8)%Z -> (1 <= bathrooms' <= 5)%Z ->
  holds (zones_inside_footprint (int 1)) (ideal bedrooms bathrooms area style) = true
  /\ holds (zones_inside_footprint (int 1))
           (run bedrooms' bathrooms' (float_of_Z n) style) = true
  /\ holds (zones_inside_footprint (int 1)) (run 21 2 2000%float "Modern") = false.
Proof.
  intros Ha Hb Hba Hn Hb' Hba'. split; [|split].
  - rewrite (@ideal_returns bedrooms bathrooms area style Ha). cbn [holds].
    apply ideal_zones_inside_footprint; lia.
  - destruct (@zones_binary64_on_ui bedrooms' bathrooms' n style Hn Hb' Hba')
      as (s & Hs & Hok & _).
    rewrite Hs. cbn [holds]. now apply zones_binary64_parts in Hok.
  - vm_compute. reflexivity.
Qed.

Lemma zones_keep_one_unit_from_the_outline_witness :
  (0 < 2000)%R /\ (0 <= 20 <= 20)%Z /\ (0 <= 0 <= 19)%Z
  /\ (500 <= 2000 <= 50000)%Z /\ (1 <= 3 <= 8)%Z /\ (1 <= 2 <= 5)%Z
  /\ holds (zones_inside_footprint (int 1)) (ideal 20 0 2000 "Modern") = true
  /\ holds (zones_inside_footprint (int 1)) (run 3 2 (float_of_Z 2000) "Modern") = true
  /\ holds (zones_inside_footprint (int 1)) (run 21 2 2000%float "Modern") = false.
Proof.
  split; [lra|]. repeat (split; [lia|]).
  apply zones_keep_one_unit_from_the_outline; [lra|lia|lia|lia|lia|lia].
Defined.

(** X6: no two zones overlap, as long as the rooms have a height.  Computed
    without rounding, for every area > 0 with at most 20 bedrooms and at most
    19 bathrooms, two different zone rectangles share no interior point (the
    first bedroom touches the Living zone).  In binary64, for every integer
    area from 500 to 50000 with 1..8 bedrooms and 1..5 bathrooms, they
    overlap by no more than one unit in the last place of 100 (2^-46); by
    rounding they can overlap that much, as the first bedroom and the Living
    zone do for area 506 with three bedrooms.  With 21 bedrooms on
    2000 sq ft the first bedroom, whose rectangle has a negative height,
    reaches into the Living zone. *)
Theorem zones_do_not_overlap
    (bedrooms bathrooms : Z) (area : R) (bedrooms' bathrooms' n : Z) (style : string) :
  (0 < area)%R -> (0 <= bedrooms <= 20)%Z -> (0 <= bathrooms <= 19)%Z ->
  (500 <= n <= 50000)%Z -> (1 <= bedrooms' <= 8)%Z -> (1 <= bathrooms' <= 5)%Z ->
  holds (zones_disjoint (int 0)) (ideal bedrooms bathrooms area style) = true
  /\ holds (zones_disjoint ulp_100) (run bedrooms' bathrooms' (float_of_Z n) style) = true
  /\ holds (zones_disjoint (int 0)) (run 3 2 (float_of_Z 506) "Modern") = false
  /\ holds (zones_disjoint ulp_100) (run 21 2 2000%float "Modern") = false.
Proof.
  intros Ha Hb Hba Hn Hb' Hba'. split; [|split; [|split]].
  - rewrite (@ideal_returns bedrooms bathrooms area style Ha). cbn [holds].
    apply ideal_zones_disjoint; lia.
  - destruct (@zones_binary64_on_ui bedrooms' bathrooms' n style Hn Hb' Hba')
      as (s & Hs & Hok & _).
    rewrite Hs. cbn [holds]. now apply zones_binary64_parts in Hok.
  - vm_compute. reflexivity.
  - vm_compute. reflexivity.
Qed.

Lemma zones_do_not_overlap_witness :
  (0 < 2000)%R /\ (0 <= 20 <= 20)%Z /\ (0 <= 19 <= 19)%Z
  /\ (500 <= 2000 <= 50000)%Z /\ (1 <= 3 <= 8)%Z /\ (1 <= 2 <= 5)%Z
  /\ holds (zones_disjoint (int 0)) (ideal 20 19 2000 "Modern") = true
  /\ holds (zones_disjoint ulp_100) (run 3 2 (float_of_Z 2000) "Modern") = true
  /\ holds (zones_disjoint (int 0)) (run 3 2 (float_of_Z 506) "Modern") = false
  /\ holds (zones_disjoint ulp_100) (run 21 2 2000%float "Modern") = false.
Proof.
  split; [lra|]. repeat (split; [lia|]).
  apply zones_do_not_overlap; [lra|lia|lia|lia|lia|lia].
Defined.

(** X7: computed without rounding, for every area > 0 with 1 to 20 bedrooms
    and at most 19 bathrooms, the Bedroom rectangles, as drawn, form a column
    of rectangles of one size, two units apart, the first bedroom on top: its
    upper side is one unit below the boundary of the two bands, and the lower
    side of the last one is one unit above the outline's bottom edge.  The
    Bathroom rectangles are of one size and two units apart as well. *)
Theorem private_rooms_are_stacked
    (bedrooms bathrooms : Z) (area : R) (style : string) :
  (0 < area)%R -> (1 <= bedrooms <= 20)%Z -> (0 <= bathrooms <= 19)%Z ->
  holds columns_stacked (ideal bedrooms bathrooms area style) = true.
Proof.
  intros Ha Hb Hba. rewrite (@ideal_returns bedrooms bathrooms area style Ha).
  cbn [holds]. apply ideal_columns_stacked; lia.
Qed.

Lemma private_rooms_are_stacked_witness :
  (0 < 2000)%R /\ (1 <= 20 <= 20)%Z /\ (0 <= 19 <= 19)%Z
  /\ holds columns_stacked (ideal 20 19 2000 "Modern") = true.
Proof.
  split; [lra|]. split; [lia|]. split; [lia|].
  apply private_rooms_are_stacked; [lra|lia|lia].
Defined.

(** X8: the fixtures, the door and the windows do not scale: two scenes the
    routine returns for the same numbers of bedrooms and bathrooms have the
    same fixtures, door and windows, in the same order and of the same
    sizes, whatever the two areas and styles are, in any arithmetic. *)
Theorem furniture_does_not_scale {num : Type} {A : PyArith num}
    (bedrooms bathrooms : Z) (area area' : num) (style style' : string)
    (s s' : @scene num) :
  draw_detailed_floor_plan bedrooms bathrooms area style = Ok s ->
  draw_detailed_floor_plan bedrooms bathrooms area' style' = Ok s' ->
  furniture_sizes s = furniture_sizes s'.
Proof. apply furniture_of_returned. Qed.

Lemma furniture_does_not_scale_witness :
  exists s s',
    run 3 2 2000%float "Modern" = Ok s
    /\ run 3 2 900%float "Victorian" = Ok s'
    /\ furniture_sizes s = furniture_sizes s'.
Proof.
  eexists. eexists. split; [vm_compute; reflexivity|].
  split; [vm_compute; reflexivity|].
  apply (@furniture_does_not_scale float float_arith 3 2 2000%float 900%float
           "Modern" "Victorian"); vm_compute; reflexivity.
Defined.

(** X9: in the kitchen the four burners lie on the stove and the sink in the
    counter, and there is one stove, one counter and one kitchen sink:
    without rounding for every area > 0 and all numbers of bedrooms and
    bathrooms, and in binary64 for every integer area from 500 to 50000 with
    1..8 bedrooms and 1..5 bathrooms. *)
Theorem kitchen_fixtures_are_nested
    (bedrooms bathrooms : Z) (area : R) (bedrooms' bathrooms' n : Z) (style : string) :
  (0 < area)%R -> (500 <= n <= 50000)%Z ->
  (1 <= bedrooms' <= 8)%Z -> (1 <= bathrooms' <= 5)%Z ->
  holds kitchen_nested (ideal bedrooms bathrooms area style) = true
  /\ holds kitchen_nested (run bedrooms' bathrooms' (float_of_Z n) style) = true.
Proof.
  intros Ha Hn Hb Hba. split.
  - rewrite (@ideal_returns bedrooms bathrooms area style Ha). cbn [holds].
    apply ideal_kitchen_nested.
  - destruct (@zones_binary64_on_ui bedrooms' bathrooms' n style Hn Hb Hba) as (s & Hs & Hok & _).
    rewrite Hs. cbn [holds]. now apply zones_binary64_parts in Hok.
Qed.

Lemma kitchen_fixtures_are_nested_witness :
  (0 < 2000)%R /\ (500 <= 2000 <= 50000)%Z /\ (1 <= 3 <= 8)%Z /\ (1 <= 2 <= 5)%Z
  /\ holds kitchen_nested (ideal 3 2 2000 "Modern") = true
  /\ holds kitchen_nested (run 3 2 (float_of_Z 2000) "Modern") = true.
Proof.
  split; [lra|]. split; [lia|]. split; [lia|]. split; [lia|].
  apply kitchen_fixtures_are_nested; [lra|lia|lia|lia].
Defined.

(** X10: the rooms are never clamped to a least height.  Computed without
    rounding, for every area > 0, every zone rectangle has a width and a
    height that are not negative exactly when there are at most 20 bedrooms
    and at most 19 bathrooms; with more, the rectangles of the rooms are drawn
    with a negative height.  In binary64 every zone rectangle has such a width
    and height for every integer area from 500 to 50000 with 1..8 bedrooms
    and 1..5 bathrooms. *)
Theorem zones_have_a_height_up_to_twenty_bedrooms
    (bedrooms bathrooms : Z) (area : R) (bedrooms' bathrooms' n : Z) (style : string) :
  (0 < area)%R -> (500 <= n <= 50000)%Z ->
  (1 <= bedrooms' <= 8)%Z -> (1 <= bathrooms' <= 5)%Z ->
  (holds zones_proper (ideal bedrooms bathrooms area style) = true
   <-> (bedrooms <= 20)%Z /\ (bathrooms <= 19)%Z)
  /\ holds zones_proper (run bedrooms' bathrooms' (float_of_Z n) style) = true.
Proof.
  intros Ha Hn Hb Hba. split.
  - rewrite (@ideal_returns bedrooms bathrooms area style Ha). cbn [holds].
    apply ideal_zones_proper.
  - destruct (@zones_binary64_on_ui bedrooms' bathrooms' n style Hn Hb Hba) as (s & Hs & Hok & _).
    rewrite Hs. cbn [holds]. now apply zones_binary64_parts in Hok.
Qed.

Lemma zones_have_a_height_up_to_twenty_bedrooms_witness :
  (0 < 2000)%R /\ (500 <= 2000 <= 50000)%Z /\ (1 <= 3 <= 8)%Z /\ (1 <= 2 <= 5)%Z
  /\ (holds zones_proper (ideal 21 2 2000 "Modern") = true
      <-> (21 <= 20)%Z /\ (2 <= 19)%Z)
  /\ holds zones_proper (run 3 2 (float_of_Z 2000) "Modern") = true.
Proof.
  split; [lra|]. split; [lia|]. split; [lia|]. split; [lia|].
  apply zones_have_a_height_up_to_twenty_bedrooms; [lra|lia|lia|lia].
Defined.

(** X11: the style decides nothing but the title: when the routine returns
    for one style it returns for every other, with the same calls apart from
    the title text, in any arithmetic. *)
Theorem style_changes_only_the_title {num : Type} {A : PyArith num}
    (bedrooms bathrooms : Z) (area : num) (style style' : string) (s : @scene num) :
  draw_detailed_floor_plan bedrooms bathrooms area style = Ok s ->
  exists s',
    draw_detailed_floor_plan bedrooms bathrooms area style' = Ok s'
    /\ filter (fun p => negb (is_title (fst p))) s
       = filter (fun p => negb (is_title (fst p))) s'.
Proof.
  intros Hs.
  pose proof (@style_of_returned _ _ bedrooms bathrooms area style style') as Hst.
  rewrite Hs in Hst.
  destruct (draw_detailed_floor_plan bedrooms bathrooms area style') as [s'|e];
    [|contradiction].
  now exists s'.
Qed.

Lemma style_changes_only_the_title_witness :
  exists s s',
    run 3 2 2000%float "Modern" = Ok s
    /\ draw_detailed_floor_plan 3 2 2000%float "Victorian" = Ok s'
    /\ filter (fun p => negb (is_title (fst p))) s
       = filter (fun p => negb (is_title (fst p))) s'.
Proof.
  eexists.
  destruct (@style_changes_only_the_title float float_arith 3 2 2000%float
              "Modern" "Victorian" _ eq_refl) as (s' & Hs' & Heq).
  exists s'. split; [reflexivity|]. split; [exact Hs'|exact Heq].
Defined.

(** X12: the fixtures are not scaled to their rooms, so that they fit in
    them up to a number of rooms only.  Computed without rounding, for every
    area > 0, every fixture lies in the rectangle of its zone exactly when
    there are at most five bedrooms and at most six bathrooms.  In binary64,
    for every integer area from 500 to 50000 with 1..8 bedrooms and 1..5
    bathrooms, they all do exactly when there are at most five bedrooms: with
    six, seven or eight bedrooms, which the bedroom slider allows, a fixture
    leaves its room. *)
Theorem fixtures_fit_up_to_five_bedrooms
    (bedrooms bathrooms : Z) (area : R) (bedrooms' bathrooms' n : Z) (style : string) :
  (0 < area)%R -> (500 <= n <= 50000)%Z ->
  (1 <= bedrooms' <= 8)%Z -> (1 <= bathrooms' <= 5)%Z ->
  (holds (fixtures_contained (int 0)) (ideal bedrooms bathrooms area style) = true
   <-> (bedrooms <= 5)%Z /\ (bathrooms <= 6)%Z)
  /\ holds (fixtures_contained (int 0)) (run bedrooms' bathrooms' (float_of_Z n) style)
     = (bedrooms' <=? 5)%Z.
Proof.
  intros Ha Hn Hb Hba. split.
  - rewrite (@ideal_returns bedrooms bathrooms area style Ha). cbn [holds].
    apply ideal_fixtures_contained_iff.
  - destruct (@zones_binary64_on_ui bedrooms' bathrooms' n style Hn Hb Hba)
      as (s & Hs & _ & Hfix & _).
    rewrite Hs. cbn [holds]. exact Hfix.
Qed.

Lemma fixtures_fit_up_to_five_bedrooms_witness :
  (0 < 2000)%R /\ (500 <= 2000 <= 50000)%Z /\ (1 <= 6 <= 8)%Z /\ (1 <= 2 <= 5)%Z
  /\ (holds (fixtures_contained (int 0)) (ideal 5 7 2000 "Modern") = true
      <-> (5 <= 5)%Z /\ (7 <= 6)%Z)
  /\ holds (fixtures_contained (int 0)) (run 6 2 (float_of_Z 2000) "Modern")
     = (6 <=? 5)%Z.
Proof.
  split; [lra|]. split; [lia|]. split; [lia|]. split; [lia|].
  apply fixtures_fit_up_to_five_bedrooms; [lra|lia|lia|lia].
Defined.

